(** * climate.c: per-state aggregation of NOAA climate records

    A shallow embedding of [climate.c] and the properties of its
    aggregation loop.  The embedding follows the C text function by
    function: [main], [analyze_file] (the [while] loop over [fgets], the
    [for] scan over the table of states and the two blocks that create or
    update an entry) and [print_report].

    Target assumed throughout: x86-64 Linux with glibc, so [long],
    [unsigned long] and [long long] are 64 bits wide, [int] is 32 bits,
    [double] is IEEE binary64, [float] is IEEE binary32, [long double] is
    the x87 extended format (64-bit significand); arithmetic on [double]
    is performed in [double], operation by operation (no fused
    multiply-add), and rounds to nearest even.

    What C leaves undefined (a null pointer handed to [atof], [strcmp] or
    [strcpy], a copy past the end of [code]) is an explicit [Undef] outcome
    of the model; [exit] is an explicit [Exit] outcome; [malloc] is an
    allocator that grants a given number of entries and then fails. *)

From Stdlib Require Import ZArith List String Ascii Bool Lia QArith.
From Stdlib Require Import DecimalString DecimalZ.
From Stdlib Require Import Floats.SpecFloat.
Import ListNotations.

Local Open Scope string_scope.
Local Open Scope list_scope.
Local Open Scope Z_scope.

(** ** The C library, as far as [climate.c] calls it *)

Module Libc.

(** *** <ctype.h> in the C locale *)

Definition isspace (c : ascii) : bool :=
  let n := nat_of_ascii c in
  (Nat.eqb n 32 || (Nat.leb 9 n && Nat.leb n 13))%bool.

Definition isdigit (c : ascii) : bool :=
  let n := nat_of_ascii c in (Nat.leb 48 n && Nat.leb n 57)%bool.

Definition digit_val (c : ascii) : Z := Z.of_nat (nat_of_ascii c) - 48.

Definition tolower (c : ascii) : ascii :=
  let n := nat_of_ascii c in
  if (Nat.leb 65 n && Nat.leb n 90)%bool then ascii_of_nat (n + 32) else c.

(** Value of a hexadecimal digit, [None] for any other character. *)
Definition xdigit_val (c : ascii) : option Z :=
  let n := nat_of_ascii (tolower c) in
  if isdigit c then Some (digit_val c)
  else if (Nat.leb 97 n && Nat.leb n 102)%bool then Some (Z.of_nat n - 87)
  else None.

(** *** <string.h>: [strtok]

    The hidden state of [strtok] is the saved pointer into the string
    being cut; it is threaded explicitly.  [strtok delim s] is a call
    whose scan starts at [s] (the first call on a line, or a call with a
    null first argument when [s] is the saved pointer): it skips leading
    delimiters, returns a null pointer when nothing is left, and
    otherwise returns the token and the position after the delimiter
    that ended it. *)

Fixpoint is_delim (delim : string) (c : ascii) : bool :=
  match delim with
  | EmptyString => false
  | String d delim' => (Ascii.eqb c d || is_delim delim' c)%bool
  end.

Fixpoint skip_delims (delim s : string) : string :=
  match s with
  | EmptyString => EmptyString
  | String c s' => if is_delim delim c then skip_delims delim s' else s
  end.

Fixpoint span_token (delim s : string) : string * string :=
  match s with
  | EmptyString => (EmptyString, EmptyString)
  | String c s' =>
      if is_delim delim c then (EmptyString, s')
      else let (t, r) := span_token delim s' in (String c t, r)
  end.

Definition strtok (delim s : string) : option string * string :=
  match skip_delims delim s with
  | EmptyString => (None, EmptyString)
  | s1 => let (t, r) := span_token delim s1 in (Some t, r)
  end.

(** A buffer filled by [fgets] is read as a C string: it ends at the
    first NUL byte. *)
Fixpoint c_str (s : string) : string :=
  match s with
  | EmptyString => EmptyString
  | String c s' => if Ascii.eqb c zero then EmptyString else String c (c_str s')
  end.

(** *** <stdio.h>: [fgets]

    A stream is the text still to be read.  [fgets size] stores at most
    [size - 1] characters and stops after a newline; it returns a null
    pointer when the stream is at its end. *)

Fixpoint fgets_aux (n : nat) (s : string) : string * string :=
  match n, s with
  | O, _ => (EmptyString, s)
  | _, EmptyString => (EmptyString, EmptyString)
  | S n', String c s' =>
      if Ascii.eqb c "010"%char then (String c EmptyString, s')
      else let (l, r) := fgets_aux n' s' in (String c l, r)
  end.

Definition fgets (size : nat) (stream : string) : option (string * string) :=
  match stream with
  | EmptyString => None
  | _ => Some (fgets_aux (size - 1) stream)
  end.

(** *** <stdlib.h>: [atoi], [atoll]

    glibc defines both through [strtol]/[strtoll] in base 10: white
    space is skipped, an optional sign is read, then the longest run of
    digits; the value saturates at the bounds of the 64-bit type, and no
    digits at all give 0.  [atoi] then narrows the [long] to [int]. *)

Definition LLONG_MAX : Z := 2 ^ 63 - 1.
Definition LLONG_MIN : Z := - 2 ^ 63.

Fixpoint skip_space (s : string) : string :=
  match s with
  | EmptyString => EmptyString
  | String c s' => if isspace c then skip_space s' else s
  end.

Definition take_sign (s : string) : bool * string :=
  match s with
  | String "-"%char s' => (true, s')
  | String "+"%char s' => (false, s')
  | _ => (false, s)
  end.

(** The longest run of decimal digits at the head of [s]: its value
    (continuing [acc]), how many digits it has, and what follows. *)
Fixpoint digits (acc : Z) (n : nat) (s : string) : Z * nat * string :=
  match s with
  | EmptyString => (acc, n, EmptyString)
  | String c s' =>
      if isdigit c then digits (10 * acc + digit_val c) (S n) s'
      else (acc, n, s)
  end.

Definition strtoll (s : string) : Z :=
  let (neg, s1) := take_sign (skip_space s) in
  let '(v, _, _) := digits 0 O s1 in
  let v := if neg then - v else v in
  Z.max LLONG_MIN (Z.min LLONG_MAX v).

Definition atoll (s : string) : Z := strtoll s.

(** Conversion of an integer to [int]: reduction modulo 2^32 into the
    signed range. *)
Definition to_int (z : Z) : Z := (z + 2 ^ 31) mod 2 ^ 32 - 2 ^ 31.

Definition atoi (s : string) : Z := to_int (strtoll s).

(** *** Floating-point formats *)

Definition flt_prec : Z := 24.
Definition flt_emax : Z := 128.
Definition dbl_prec : Z := 53.
Definition dbl_emax : Z := 1024.
Definition ldbl_prec : Z := 64.
Definition ldbl_emax : Z := 16384.

(** Conversion of a floating-point value to the format [prec], [emax],
    rounding to nearest even. *)
Definition SFconv (prec emax : Z) (x : spec_float) : spec_float :=
  match x with
  | S754_finite s m e => binary_round prec emax s m e
  | _ => x
  end.

(** Conversion of an integer to the format [prec], [emax]. *)
Definition SFofZ (prec emax : Z) (z : Z) : spec_float :=
  binary_normalize prec emax z 0 false.

(** [(-1)^s * m * 10^e] rounded to the format [prec], [emax]. *)
Definition of_decimal (prec emax : Z) (s : bool) (m e : Z) : spec_float :=
  match m with
  | Zpos p =>
      if 0 <=? e then binary_round prec emax s (p * Z.to_pos (10 ^ e))%positive 0
      else
        let '(q, e', l) :=
          SFdiv_core_binary prec emax (Zpos p) 0 (10 ^ (- e)) 0 in
        binary_round_aux prec emax s q e' l
  | _ => S754_zero s
  end.

(** The exact value of a finite floating-point number, as a fraction in
    lowest terms. *)
Definition SF2Q (x : spec_float) : option Q :=
  match x with
  | S754_zero _ => Some (0 # 1)
  | S754_finite s m e =>
      let v := cond_Zopp s (Zpos m) in
      Some (Qred (if 0 <=? e then inject_Z (v * 2 ^ e)
                  else Qmake v (Z.to_pos (2 ^ (- e)))))
  | _ => None
  end.

(** *** <stdlib.h>: [atof], that is [strtod]

    After white space and an optional sign [strtod] accepts "inf" and
    "nan" whatever the case of their letters, a hexadecimal constant
    introduced by "0x", or a decimal constant: digits with at most one
    point among them and at least one digit, then an optional exponent.
    The result is the nearest [double]; text that starts none of these
    converts to 0. *)

Fixpoint prefix_nocase (p s : string) : bool :=
  match p, s with
  | EmptyString, _ => true
  | String a p', String b s' =>
      (Ascii.eqb a (tolower b) && prefix_nocase p' s')%bool
  | _, EmptyString => false
  end.

(** The exponent part of a constant, introduced by the letter [mark]:
    the letter, an optional sign and at least one digit; anything else
    is left unread and counts as exponent 0. *)
Definition exponent_part (mark : ascii) (s : string) : Z :=
  match s with
  | String c s' =>
      if Ascii.eqb (tolower c) mark then
        let (neg, s1) := take_sign s' in
        let '(v, n, _) := digits 0 O s1 in
        match n with
        | O => 0
        | _ => if neg then - v else v
        end
      else 0
  | EmptyString => 0
  end.

(** The longest run of hexadecimal digits at the head of [s]. *)
Fixpoint xdigits (acc : Z) (n : nat) (s : string) : Z * nat * string :=
  match s with
  | EmptyString => (acc, n, EmptyString)
  | String c s' =>
      match xdigit_val c with
      | Some d => xdigits (16 * acc + d) (S n) s'
      | None => (acc, n, s)
      end
  end.

(** Digits, an optional point and more digits, read by [run] (decimal or
    hexadecimal): the integer the digits spell with the point removed,
    the number of digits before and after the point, and the rest. *)
Definition mantissa (run : Z -> nat -> string -> Z * nat * string)
    (s : string) : Z * nat * nat * string :=
  let '(m1, n1, r1) := run 0 O s in
  match r1 with
  | String "."%char r2 =>
      let '(m2, n2, r3) := run m1 O r2 in (m2, n1, n2, r3)
  | _ => (m1, n1, O, r1)
  end.

Definition strtod_decimal (neg : bool) (s : string) : spec_float :=
  let '(m, n1, n2, r) := mantissa digits s in
  match (n1 + n2)%nat with
  | O => S754_zero false
  | _ =>
      of_decimal dbl_prec dbl_emax neg m
        (exponent_part "e"%char r - Z.of_nat n2)
  end.

Definition strtod_hex (neg : bool) (s : string) : option spec_float :=
  let '(m, n1, n2, r) := mantissa xdigits s in
  match (n1 + n2)%nat with
  | O => None
  | _ =>
      Some (binary_normalize dbl_prec dbl_emax (cond_Zopp neg m)
              (exponent_part "p"%char r - 4 * Z.of_nat n2) neg)
  end.

Definition strtod (s : string) : spec_float :=
  let (neg, s1) := take_sign (skip_space s) in
  if prefix_nocase "inf" s1 then S754_infinity neg
  else if prefix_nocase "nan" s1 then S754_nan
  else
    match (if prefix_nocase "0x" s1 then
             strtod_hex neg (substring 2 (String.length s1 - 2) s1)
           else None) with
    | Some x => x
    | None => strtod_decimal neg s1
    end.

Definition atof (s : string) : spec_float := strtod s.

Definition EXIT_FAILURE : Z := 1.

End Libc.

Import Libc.

(** ** climate.c *)

Definition NUM_STATES : nat := 50.

(** Conversion to [unsigned long] and to [long]. *)
Definition to_ulong (z : Z) : Z := z mod 2 ^ 64.
Definition to_long (z : Z) : Z := (z + 2 ^ 63) mod 2 ^ 64 - 2 ^ 63.

Record climate_info : Type := {
  code : string;
  num_records : Z;
  sum_temperature : spec_float;
  sum_humidity : spec_float;
  snow_records : Z;
  sum_cloud_cover : spec_float;
  lightning_strikes : Z;
  max_temperature : spec_float;
  min_temperature : spec_float;
  max_timestamp : Z;
  min_timestamp : Z
}.

(** *** Outcomes and output *)

Inductive fault : Type :=
| NullPointer    (* a null token handed to strcpy, strcmp, atoll, atoi or atof *)
| CodeOverflow   (* strcpy writes past the three bytes of [code] *)
| OutOfBounds.   (* the table is read past its last element *)

(** An argument of a [printf] call; [ACtime t] is the string [ctime]
    returns for the time [t]. *)
Inductive arg : Type :=
| AStr (s : string)
| ALong (z : Z)
| ADouble (x : spec_float)
| ACtime (t : Z).

(** One [printf] call: the format as the source spells it (escape
    sequences unexpanded) and its arguments. *)
Inductive print : Type :=
| Printf (format : string) (args : list arg).

Inductive outcome (A : Type) : Type :=
| Done (a : A)
| Exit (status : Z) (out : list print)   (* [out] was printed, then [exit] *)
| Undef (f : fault).

Arguments Done {A} a.
Arguments Exit {A} status out.
Arguments Undef {A} f.

(** *** Reading one line: the calls to [strtok]

    The calls after the first continue from the pointer [strtok] saved;
    a computation over that pointer either goes on with a new pointer or
    stops the program. *)

Definition tok (A : Type) : Type := string -> outcome (A * string).

Definition ret {A : Type} (a : A) : tok A := fun sp => Done (a, sp).

Definition bind {A B : Type} (m : tok A) (k : A -> tok B) : tok B :=
  fun sp =>
    match m sp with
    | Done (a, sp') => k a sp'
    | Exit s o => Exit s o
    | Undef f => Undef f
    end.

Definition stop {A : Type} (f : fault) : tok A := fun _ => Undef f.

Notation "x <- m ;; k" := (bind m (fun x => k))
  (at level 61, m at next level, right associativity).

(** The delimiters of [analyze_file]: tab and newline. *)
Definition delim : string := String "009"%char (String "010"%char EmptyString).

(** [strtok(NULL, delim)] *)
Definition next_token : tok (option string) := fun sp => Done (strtok delim sp).

(** Use of a token as a string: undefined for a null pointer. *)
Definition deref (p : option string) : tok string :=
  match p with
  | Some s => ret s
  | None => stop NullPointer
  end.

(** [strtok(NULL, delim)] as the argument of [atoll], [atoi] or [atof]. *)
Definition next_arg : tok string := p <- next_token ;; deref p.

(** [strcpy(code, token)] into [char code[3]]. *)
Definition strcpy_code (token : option string) : tok string :=
  t <- deref token ;;
  if (String.length t <=? 2)%nat then ret t else stop CodeOverflow.

(** The constants 1.8 and 459.67 of type [double]. *)
Definition c_1_8 : spec_float :=
  Eval vm_compute in of_decimal dbl_prec dbl_emax false 18 (-1).
Definition c_459_67 : spec_float :=
  Eval vm_compute in of_decimal dbl_prec dbl_emax false 45967 (-2).

(** [temperature = atof(...) * 1.8 - 459.67]: the product and the
    difference are computed in [double]; the assignment to the [float]
    variable rounds the result to single precision. *)
Definition fahrenheit (kelvin : spec_float) : spec_float :=
  SFconv flt_prec flt_emax
    (SFsub dbl_prec dbl_emax (SFmul dbl_prec dbl_emax kelvin c_1_8) c_459_67).

Definition to_ldbl (x : spec_float) : spec_float := SFconv ldbl_prec ldbl_emax x.
Definition ldbl_add (x y : spec_float) : spec_float := SFadd ldbl_prec ldbl_emax x y.

(** [a > b] on floating-point values. *)
Definition fgt (a b : spec_float) : bool := SFltb b a.

(** Lines 185-199: the entry written for a state seen for the first
    time. *)
Definition new_entry (token : option string) : tok climate_info :=
  c <- strcpy_code token ;;
  t1 <- next_arg ;;
  let timestamp := Z.quot (atoll t1) 1000 in
  _ <- next_token ;;
  t3 <- next_arg ;;
  t4 <- next_arg ;;
  t5 <- next_arg ;;
  t6 <- next_arg ;;
  _ <- next_token ;;
  t8 <- next_arg ;;
  let temperature := fahrenheit (atof t8) in
  ret {| code := c;
         num_records := 1;
         sum_temperature := to_ldbl temperature;
         sum_humidity := to_ldbl (atof t3);
         snow_records := to_ulong (atoi t4);
         sum_cloud_cover := to_ldbl (atof t5);
         lightning_strikes := to_ulong (atoi t6);
         max_temperature := temperature;
         min_temperature := temperature;
         max_timestamp := timestamp;
         min_timestamp := timestamp |}.

(** Lines 205-223: the entry of a state seen before, after the line is
    added to it. *)
Definition update_entry (info : climate_info) : tok climate_info :=
  t1 <- next_arg ;;
  let timestamp := Z.quot (atoll t1) 1000 in
  _ <- next_token ;;
  t3 <- next_arg ;;
  t4 <- next_arg ;;
  t5 <- next_arg ;;
  t6 <- next_arg ;;
  _ <- next_token ;;
  t8 <- next_arg ;;
  let temperature := fahrenheit (atof t8) in
  let hi := fgt temperature (max_temperature info) in
  let lo := fgt (min_temperature info) temperature in
  ret {| code := code info;
         num_records := to_ulong (num_records info + 1);
         sum_temperature := ldbl_add (sum_temperature info) (to_ldbl temperature);
         sum_humidity := ldbl_add (sum_humidity info) (to_ldbl (atof t3));
         snow_records := to_ulong (snow_records info + atoi t4);
         sum_cloud_cover := ldbl_add (sum_cloud_cover info) (to_ldbl (atof t5));
         lightning_strikes := to_ulong (lightning_strikes info + atoi t6);
         max_temperature := if hi then temperature else max_temperature info;
         min_temperature := if lo then temperature else min_temperature info;
         max_timestamp := if hi then timestamp else max_timestamp info;
         min_timestamp := if lo then timestamp else min_timestamp info |}.

(** [malloc] grants [heap] more entries and then returns null pointers. *)
Definition alloc_error : list print :=
  [Printf "ERROR: Memory could not be allocated\n" []].

(** Lines 176-227: the [for] loop over the table, from the index where
    [states] starts, with [num_states] indices still to visit. *)
Fixpoint scan (num_states : nat) (token : option string)
    (states : list (option climate_info)) (heap : nat)
  : tok (list (option climate_info) * nat) :=
  match num_states with
  | O => ret (states, heap)
  | S n =>
      match states with
      | [] => stop OutOfBounds
      | None :: rest =>
          match heap with
          | O => fun _ => Exit EXIT_FAILURE alloc_error
          | S heap' => e <- new_entry token ;; ret (Some e :: rest, heap')
          end
      | Some info :: rest =>
          t <- deref token ;;
          if String.eqb (code info) t then
            e <- update_entry info ;; ret (Some e :: rest, heap)
          else
            r <- scan n token rest heap ;; ret (Some info :: fst r, snd r)
      end
  end.

(** Lines 175-227: the body of the [while] loop for the line [line]. *)
Definition analyze_line (line : string) (states : list (option climate_info))
    (num_states heap : nat) : outcome (list (option climate_info) * nat) :=
  let (token, sp) := strtok delim (c_str line) in
  match scan num_states token states heap sp with
  | Done (r, _) => Done r
  | Exit s o => Exit s o
  | Undef f => Undef f
  end.

Definition line_sz : nat := 100.

(** Lines 163-229: the [while] loop.  Every [fgets] that returns a line
    takes at least one character from the stream, so the length of the
    file bounds the number of iterations ([read_lines_concat] below). *)
Fixpoint analyze_loop (fuel : nat) (file : string)
    (states : list (option climate_info)) (num_states heap : nat)
  : outcome (list (option climate_info) * nat) :=
  match fuel with
  | O => Done (states, heap)
  | S fuel' =>
      match fgets line_sz file with
      | None => Done (states, heap)
      | Some (line, file') =>
          match analyze_line line states num_states heap with
          | Done (states', heap') =>
              analyze_loop fuel' file' states' num_states heap'
          | e => e
          end
      end
  end.

Definition analyze_file (file : string) (states : list (option climate_info))
    (num_states heap : nat) : outcome (list (option climate_info) * nat) :=
  analyze_loop (String.length file) file states num_states heap.

(** The lines the [while] loop reads, one [fgets] each, and the loop body
    run on a given sequence of lines. *)
Fixpoint read_lines (fuel : nat) (file : string) : list string :=
  match fuel with
  | O => []
  | S fuel' =>
      match fgets line_sz file with
      | None => []
      | Some (line, file') => line :: read_lines fuel' file'
      end
  end.

Fixpoint analyze_lines (lines : list string) (states : list (option climate_info))
    (num_states heap : nat) : outcome (list (option climate_info) * nat) :=
  match lines with
  | [] => Done (states, heap)
  | line :: lines' =>
      match analyze_line line states num_states heap with
      | Done (states', heap') => analyze_lines lines' states' num_states heap'
      | e => e
      end
  end.

(** *** print_report *)

(** The non-null entries among the first [num_states] of the table. *)
Fixpoint entries (num_states : nat) (states : list (option climate_info))
  : option (list climate_info) :=
  match num_states with
  | O => Some []
  | S n =>
      match states with
      | [] => None
      | slot :: rest =>
          match entries n rest with
          | None => None
          | Some es =>
              Some match slot with Some info => info :: es | None => es end
          end
      end
  end.

Definition ldbl_avg (sum : spec_float) (n : Z) : spec_float :=
  SFconv dbl_prec dbl_emax
    (SFdiv ldbl_prec ldbl_emax sum (SFofZ ldbl_prec ldbl_emax n)).

Definition report_block (info : climate_info) : list print :=
  [ Printf "-- State: %s --\n" [AStr (code info)];
    Printf "Number of Records: %ld\n" [ALong (to_long (num_records info))];
    Printf "Average Humidity: %0.1f%%\n"
      [ADouble (ldbl_avg (sum_humidity info) (num_records info))];
    Printf "Average Temperature: %0.1fF\n"
      [ADouble (ldbl_avg (sum_temperature info) (num_records info))];
    Printf "Max Temperature: %0.1fF\n"
      [ADouble (SFconv dbl_prec dbl_emax (max_temperature info))];
    Printf "Max Temperature on: %s" [ACtime (max_timestamp info)];
    Printf "Min Temperature: %0.1fF\n"
      [ADouble (SFconv dbl_prec dbl_emax (min_temperature info))];
    Printf "Min Temperature on: %s" [ACtime (min_timestamp info)];
    Printf "Lightning Strikes: %ld\n" [ALong (to_long (lightning_strikes info))];
    Printf "Records with Snow Cover: %ld\n" [ALong (to_long (snow_records info))];
    Printf "Average Cloud Cover: %0.1f%%\n"
      [ADouble (ldbl_avg (sum_cloud_cover info) (num_records info))] ].

Definition report_of (es : list climate_info) : list print :=
  Printf "States found: " []
    :: map (fun info => Printf "%s " [AStr (code info)]) es
    ++ Printf "\n" [] :: flat_map report_block es.

Definition print_report (states : list (option climate_info)) (num_states : nat)
  : outcome (list print) :=
  match entries num_states states with
  | Some es => Done (report_of es)
  | None => Undef OutOfBounds
  end.

(** *** main *)

(** How a run of the program ends. *)
Inductive run : Type :=
| Terminated (status : Z) (out : list print)
| Crashed (f : fault) (out : list print).

(** The [for] loop of [main] over the file names; [fopen] is the file
    system: the text of a file that can be opened, nothing for one that
    cannot. *)
Fixpoint main_loop (fopen : string -> option string) (argv : list string)
    (states : list (option climate_info)) (heap : nat) (out : list print)
  : run + (list (option climate_info) * list print) :=
  match argv with
  | [] => inr (states, out)
  | path :: argv' =>
      match fopen path with
      | None =>
          main_loop fopen argv' states heap
            (out ++ [Printf "ERROR: %s does not exist\n" [AStr path]])
      | Some file =>
          let out1 := out ++ [Printf "Opening file: %s\n" [AStr path]] in
          match analyze_file file states NUM_STATES heap with
          | Done (states', heap') => main_loop fopen argv' states' heap' out1
          | Exit s o => inl (Terminated s (out1 ++ o))
          | Undef f => inl (Crashed f out1)
          end
      end
  end.

(** [main] with [argv[0] = prog] and the other arguments [args]. *)
Definition main (fopen : string -> option string) (heap : nat)
    (prog : string) (args : list string) : run :=
  match args with
  | [] =>
      Terminated EXIT_FAILURE
        [Printf "Usage: %s tdv_file1 tdv_file2 ... tdv_fileN \n" [AStr prog]]
  | _ =>
      match main_loop fopen args (repeat None NUM_STATES) heap [] with
      | inl r => r
      | inr (states, out) =>
          match states with
          | Some _ :: _ =>
              match print_report states NUM_STATES with
              | Done o => Terminated 0 (out ++ o)
              | Exit s o => Terminated s (out ++ o)
              | Undef f => Crashed f out
              end
          | _ => Terminated 0 out
          end
      end
  end.

(** ** The fields of a line *)

(** All the tokens [strtok] cuts out of a string, call after call. *)
Fixpoint tokens_fuel (fuel : nat) (s : string) : list string :=
  match fuel with
  | O => []
  | S fuel' =>
      match strtok delim s with
      | (Some t, r) => t :: tokens_fuel fuel' r
      | (None, _) => []
      end
  end.

Definition tokens (s : string) : list string := tokens_fuel (String.length s) s.

(** The tokens of a line as [analyze_file] sees it. *)
Definition fields (line : string) : list string := tokens (c_str line).

Definition field (i : nat) (ts : list string) : string := nth i ts EmptyString.

(** The temperature and the time a list of fields stands for. *)
Definition temperature_of (ts : list string) : spec_float :=
  fahrenheit (atof (field 8 ts)).
Definition timestamp_of (ts : list string) : Z :=
  Z.quot (atoll (field 1 ts)) 1000.

(** The entry [new_entry] writes and the entry [update_entry] leaves, as
    functions of the fields of the line. *)
Definition created (ts : list string) : climate_info :=
  {| code := field 0 ts;
     num_records := 1;
     sum_temperature := to_ldbl (temperature_of ts);
     sum_humidity := to_ldbl (atof (field 3 ts));
     snow_records := to_ulong (atoi (field 4 ts));
     sum_cloud_cover := to_ldbl (atof (field 5 ts));
     lightning_strikes := to_ulong (atoi (field 6 ts));
     max_temperature := temperature_of ts;
     min_temperature := temperature_of ts;
     max_timestamp := timestamp_of ts;
     min_timestamp := timestamp_of ts |}.

Definition folded (info : climate_info) (ts : list string) : climate_info :=
  let hi := fgt (temperature_of ts) (max_temperature info) in
  let lo := fgt (min_temperature info) (temperature_of ts) in
  {| code := code info;
     num_records := to_ulong (num_records info + 1);
     sum_temperature :=
       ldbl_add (sum_temperature info) (to_ldbl (temperature_of ts));
     sum_humidity := ldbl_add (sum_humidity info) (to_ldbl (atof (field 3 ts)));
     snow_records := to_ulong (snow_records info + atoi (field 4 ts));
     sum_cloud_cover :=
       ldbl_add (sum_cloud_cover info) (to_ldbl (atof (field 5 ts)));
     lightning_strikes := to_ulong (lightning_strikes info + atoi (field 6 ts));
     max_temperature := if hi then temperature_of ts else max_temperature info;
     min_temperature := if lo then temperature_of ts else min_temperature info;
     max_timestamp := if hi then timestamp_of ts else max_timestamp info;
     min_timestamp := if lo then timestamp_of ts else min_timestamp info |}.

(** A line the program reads without leaving defined behaviour: nine
    fields or more, the first of at most two characters. *)
Definition well_formed (line : string) : bool :=
  (Nat.leb 9 (List.length (fields line))
   && Nat.leb (String.length (field 0 (fields line))) 2)%bool.

(** ** The table as a list of entries *)

(** The table of [main]: the entries made so far, then null pointers. *)
Definition table (infos : list climate_info) (free : nat)
  : list (option climate_info) :=
  map Some infos ++ repeat None free.

(** A slot that holds an entry for a state other than [c]. *)
Definition other (c : string) (slot : option climate_info) : Prop :=
  exists info, slot = Some info /\ code info <> c.

(** What a well-formed line with the fields [ts] does to the entries and
    to the number of free slots. *)
Fixpoint place (ts : list string) (infos : list climate_info) (free : nat)
  : list climate_info * nat :=
  match infos with
  | [] =>
      match free with
      | O => ([], O)
      | S k => ([created ts], k)
      end
  | info :: rest =>
      if String.eqb (code info) (field 0 ts) then (folded info ts :: rest, free)
      else let (r, k) := place ts rest free in (info :: r, k)
  end.

Fixpoint place_all (tss : list (list string)) (infos : list climate_info)
    (free : nat) : list climate_info * nat :=
  match tss with
  | [] => (infos, free)
  | ts :: tss' => let (i, k) := place ts infos free in place_all tss' i k
  end.

(** The state code a line carries. *)
Definition region_code (line : string) : string := field 0 (fields line).

(** Discovery order, in the words of the specification: the distinct
    codes of a sequence, in the order in which each is first met. *)
Fixpoint first_seen (codes : list string) : list string :=
  match codes with
  | [] => []
  | c :: cs => c :: filter (fun d => negb (String.eqb d c)) (first_seen cs)
  end.

Definition mem (c : string) (s : list string) : bool := existsb (String.eqb c) s.

(** ** A run of [main] *)

(** The lines [main] reads: those of every file that opens, in the order
    of the arguments. *)
Definition all_lines (fopen : string -> option string) (args : list string)
  : list string :=
  flat_map (fun path =>
              match fopen path with
              | Some file => read_lines (String.length file) file
              | None => []
              end) args.

(** What [main] prints about each argument. *)
Definition file_message (fopen : string -> option string) (path : string)
  : print :=
  match fopen path with
  | Some _ => Printf "Opening file: %s\n" [AStr path]
  | None => Printf "ERROR: %s does not exist\n" [AStr path]
  end.

Definition all_well_formed (lines : list string) : bool :=
  forallb well_formed lines.

(** ** Sample input *)

Definition tab : string := String "009"%char EmptyString.
Definition newline : string := String "010"%char EmptyString.

(** A line of a TDV file with the given fields. *)
Definition tdv_line (fs : list string) : string :=
  (String.concat tab fs ++ newline)%string.

Definition tn_first : string :=
  tdv_line ["TN"; "1420000000000"; "dn6m9tq7yc80"; "50"; "0"; "40"; "1";
            "95644.0"; "283.15"].
Definition tn_second : string :=
  tdv_line ["TN"; "1420003600000"; "dn6m9tq7yc80"; "48"; "1"; "60"; "0";
            "95644.0"; "293.15"].

(** The [i]-th of a family of two-letter codes: AA, AB, ... *)
Definition code_of (i : nat) : string :=
  String (ascii_of_nat (65 + i / 26)) (String (ascii_of_nat (65 + i mod 26)) EmptyString).

(** A record of the [i]-th state, with the values of the first sample
    line of the header of [climate.c]. *)
Definition state_line (i : nat) : string :=
  tdv_line [code_of i; "1428300000000"; "9prcjqk3yc80"; "93.0"; "0.0"; "100.0";
            "0.0"; "95644.0"; "277.58716"].

(** Records of [n] different states. *)
Definition state_lines (n : nat) : list string := map state_line (seq 0 n).

(** The entry the first sample line of Tennessee creates. *)
Definition tn_entry : climate_info := created (fields tn_first).

(** The entries of a table filled by one record of each of 50 states. *)
Definition full_infos : list climate_info :=
  map (fun i => created (fields (state_line i))) (seq 0 NUM_STATES).

(** A record of the state [c], with the values of the second sample line
    of the header of [climate.c]. *)
Definition record_of (c : string) : string :=
  tdv_line [c; "1430308800000"; "9prc9sgwvw80"; "4.0"; "0.0"; "100.0"; "0.0";
            "99226.0"; "282.63037"].

(** Two files: records of A and B in the first, of A and C in the second;
    no other file can be opened. *)
Definition two_files (path : string) : option string :=
  if String.eqb path "one.tdv" then Some (record_of "A" ++ record_of "B")%string
  else if String.eqb path "two.tdv" then Some (record_of "A" ++ record_of "C")%string
  else None.

(** One file that holds the first record of Tennessee. *)
Definition tn_file (path : string) : option string :=
  if String.eqb path "tn.tdv" then Some tn_first else None.

(** One file that holds a line with the state code alone. *)
Definition short_file (path : string) : option string :=
  if String.eqb path "tn.tdv" then Some (tdv_line ["TN"]) else None.


(** ** Measures of a table *)

(** The minimum of an entry is not above its maximum. *)
Definition ordered (info : climate_info) : bool :=
  SFleb (min_temperature info) (max_temperature info).

(** The temperature field of a line converts to a number. *)
Definition numeric (line : string) : bool :=
  match temperature_of (fields line) with
  | S754_nan => false
  | _ => true
  end.

(** The sum of the record counts of the entries. *)
Definition total_records (infos : list climate_info) : Z :=
  fold_right (fun info s => num_records info + s) 0 infos.

(** The record count filed under the code [c], 0 when no entry has it. *)
Definition records_of (c : string) (infos : list climate_info) : Z :=
  match find (fun info => String.eqb (code info) c) infos with
  | Some info => num_records info
  | None => 0
  end.

(** How many of the field lists [tss] carry the code [c]. *)
Definition count_code (c : string) (tss : list (list string)) : Z :=
  Z.of_nat (List.length (filter (fun ts => String.eqb (field 0 ts) c) tss)).

(** A record count that [more] further records cannot carry past the top
    of [unsigned long]. *)
Definition in_range (more : Z) (info : climate_info) : Prop :=
  0 <= num_records info /\ num_records info + more < 2 ^ 64.

(** The decimal numeral of an integer. *)
Definition decimal (z : Z) : string := NilZero.string_of_int (Z.to_int z).


(** A record of Tennessee at 300 K. *)
Definition tn_300 : string :=
  tdv_line ["TN"; "1420000000000"; "dn6m9tq7yc80"; "50"; "0"; "40"; "1";
            "95644.0"; "300"].


(** A line of a text file that [fgets] returns whole: at most 99
    characters, the last a newline and no newline before it. *)
Fixpoint ends_line (l : string) : bool :=
  match l with
  | EmptyString => false
  | String c EmptyString => Ascii.eqb c "010"%char
  | String c l' => (negb (Ascii.eqb c "010"%char) && ends_line l')%bool
  end.

Definition whole_line (l : string) : bool :=
  (Nat.leb (String.length l) (line_sz - 1) && ends_line l)%bool.

(** ** The records of one state *)

(** The field lists that carry the code [c], in their order. *)
Definition group (c : string) (tss : list (list string)) : list (list string) :=
  filter (fun ts => String.eqb (field 0 ts) c) tss.

(** The entry the records of one state build up: the first creates it,
    the others are added to it in turn. *)
Definition summary (L : list (list string)) : option climate_info :=
  match L with
  | [] => None
  | ts :: rest => Some (fold_left folded rest (created ts))
  end.

(** A table that agrees with the lines [seen] so far: no code twice, a
    line without an entry only when no slot was left, and every entry the
    summary of the lines of its code. *)
Definition settled (infos : list climate_info) (free : nat)
    (seen : list (list string)) : Prop :=
  NoDup (map code infos)
  /\ (forall ts, In ts seen ->
        mem (field 0 ts) (map code infos) = true \/ free = O)
  /\ (forall info, In info infos ->
        summary (group (code info) seen) = Some info).

(** The lines of the code [c]. *)
Definition lines_of (c : string) (lines : list string) : list string :=
  filter (fun l => String.eqb (region_code l) c) lines.



(** ** The layout of a file *)

(** The string does not hold the character [c]. *)
Fixpoint avoids (c : ascii) (s : string) : bool :=
  match s with
  | EmptyString => true
  | String a s' => (negb (Ascii.eqb a c) && avoids c s')%bool
  end.

(** A field as the header of [climate.c] describes the format: not empty,
    and without tab, newline or NUL. *)
Definition plain_field (f : string) : bool :=
  (negb (String.eqb f EmptyString)
   && avoids "009"%char f && avoids "010"%char f && avoids zero f)%bool.

(** A record that can be written as one line that [fgets] returns whole. *)
Definition plain_record (fs : list string) : bool :=
  (forallb plain_field fs
   && Nat.leb (String.length (tdv_line fs)) (line_sz - 1))%bool.

(** The last character of the string is a newline. *)
Fixpoint ends_newline (s : string) : bool :=
  match s with
  | EmptyString => false
  | String c EmptyString => Ascii.eqb c "010"%char
  | String _ s' => ends_newline s'
  end.

(** The text of a file with the lines [ls]. *)
Definition file_of (ls : list string) : string :=
  fold_right append EmptyString ls.

(** A record of more than 99 characters, cut where [fgets] cuts it. *)
Definition long_record : list string :=
  ["TN"; "1420000000000"; "dn6m9tq7yc80dn6m9tq7yc80dn6m9tq7yc80";
   "50.000000"; "0"; "40.000000"; "1"; "95644.000000"; "283.150000";
   "WA"; "1430308800000"; "x"; "4"; "0"; "1"; "0"; "9"; "282"].

Definition long_head : string := substring 0 99 (tdv_line long_record).

Definition long_tail : string :=
  substring 99 (String.length (tdv_line long_record) - 99)
    (tdv_line long_record).

(** A record of Tennessee whose temperature field is the text nan. *)
Definition tn_nan : string :=
  tdv_line ["TN"; "1420000000000"; "dn6m9tq7yc80"; "50"; "0"; "40"; "1";
            "95644.0"; "nan"].
(** ** Tokens *)

Section Tokens.

Lemma skip_delims_length d s :
  (String.length (skip_delims d s) <= String.length s)%nat.
Proof.
  induction s as [|c s IH]; simpl; [lia|].
  destruct (is_delim d c); simpl; lia.
Qed.

Lemma span_token_length d s :
  (String.length (snd (span_token d s)) <= String.length s)%nat.
Proof.
  induction s as [|c s IH]; simpl; [lia|].
  destruct (is_delim d c); simpl; [lia|].
  destruct (span_token d s) as [t r]; simpl in *; lia.
Qed.

Lemma strtok_some_length d s t r :
  strtok d s = (Some t, r) -> (String.length r < String.length s)%nat.
Proof.
  unfold strtok. intros H.
  pose proof (skip_delims_length d s) as Hs.
  destruct (skip_delims d s) as [|c s1] eqn:E; [discriminate|].
  simpl in H. destruct (is_delim d c).
  - inversion H; subst. simpl in Hs. lia.
  - pose proof (span_token_length d s1) as Hr.
    destruct (span_token d s1) as [t1 r1]. inversion H; subst.
    simpl in *. lia.
Qed.

Lemma strtok_none d s r : strtok d s = (None, r) -> r = EmptyString.
Proof.
  unfold strtok. destruct (skip_delims d s) as [|c s1].
  - intros H; inversion H; reflexivity.
  - destruct (span_token d (String c s1)); discriminate.
Qed.

Lemma tokens_fuel_irrelevant n : forall m s,
  (String.length s <= n)%nat -> (String.length s <= m)%nat ->
  tokens_fuel n s = tokens_fuel m s.
Proof.
  induction n as [|n IH]; intros m s Hn Hm.
  - destruct s; simpl in *; [destruct m; reflexivity | lia].
  - destruct m as [|m].
    + destruct s; simpl in *; [reflexivity | lia].
    + cbn [tokens_fuel].
      destruct (strtok delim s) as [[t|] r] eqn:E; [|reflexivity].
      apply strtok_some_length in E.
      rewrite (IH m r) by lia. reflexivity.
Qed.

Lemma tokens_fuel_enough n s :
  (String.length s <= n)%nat -> tokens_fuel n s = tokens s.
Proof. intros H. apply tokens_fuel_irrelevant; [exact H | lia]. Qed.

Lemma tokens_strtok s :
  tokens s =
  match strtok delim s with
  | (Some t, r) => t :: tokens r
  | (None, _) => []
  end.
Proof.
  destruct s as [|c s]; [reflexivity|].
  unfold tokens at 1. cbn [tokens_fuel String.length].
  destruct (strtok delim (String c s)) as [[t|] r] eqn:E; [|reflexivity].
  apply strtok_some_length in E. simpl in E.
  rewrite tokens_fuel_enough by lia. reflexivity.
Qed.

Lemma strtok_tokens s :
  exists r, strtok delim s = (hd_error (tokens s), r)
            /\ tokens r = tl (tokens s).
Proof.
  rewrite tokens_strtok.
  destruct (strtok delim s) as [[t|] r] eqn:E.
  - exists r. split; reflexivity.
  - exists r. apply strtok_none in E. subst. split; reflexivity.
Qed.

Lemma bind_done {A B} (m : tok A) (k : A -> tok B) sp a sp' :
  m sp = Done (a, sp') -> bind m k sp = k a sp'.
Proof. unfold bind. intros ->. reflexivity. Qed.

Lemma next_token_tokens sp :
  exists p sp', next_token sp = Done (p, sp') /\ tokens sp' = tl (tokens sp).
Proof.
  destruct (strtok_tokens sp) as (r & E & T).
  exists (hd_error (tokens sp)), r. unfold next_token. rewrite E. auto.
Qed.

Lemma next_arg_tokens sp t ts :
  tokens sp = t :: ts ->
  exists sp', next_arg sp = Done (t, sp') /\ tokens sp' = ts.
Proof.
  intros H. destruct (strtok_tokens sp) as (r & E & T).
  rewrite H in E, T. exists r. split; [|exact T].
  unfold next_arg, next_token, bind. rewrite E. reflexivity.
Qed.

Lemma next_arg_nil sp : tokens sp = [] -> next_arg sp = Undef NullPointer.
Proof.
  intros H. destruct (strtok_tokens sp) as (r & E & T).
  rewrite H in E. unfold next_arg, next_token, bind. rewrite E. reflexivity.
Qed.

End Tokens.

(** Reads the next field with [next_arg] or skips it with [next_token]. *)
Ltac read_field H :=
match goal with
| |- context [bind next_arg _ ?sp] =>
    let sp' := fresh "sp" in
    let E := fresh "E" in
    let T := fresh "T" in
    destruct (next_arg_tokens sp _ _ H) as (sp' & E & T);
    rewrite (bind_done _ _ _ _ _ E); clear E H; rename T into H
| |- context [bind next_token _ ?sp] =>
    let p := fresh "p" in
    let sp' := fresh "sp" in
    let E := fresh "E" in
    let T := fresh "T" in
    destruct (next_token_tokens sp) as (p & sp' & E & T);
    rewrite (bind_done _ _ _ _ _ E); rewrite H in T; cbn [tl] in T;
    clear E H; rename T into H
end.

Section Entries.

Variables (c t1 t2 t3 t4 t5 t6 t7 t8 : string) (extra : list string).

Let ts : list string := c :: t1 :: t2 :: t3 :: t4 :: t5 :: t6 :: t7 :: t8 :: extra.

Lemma update_entry_fields info sp :
  tokens sp = tl ts ->
  exists sp', update_entry info sp = Done (folded info ts, sp').
Proof.
  intros H. subst ts. cbn [tl] in H. unfold update_entry.
  do 8 read_field H.
  eexists. reflexivity.
Qed.

Lemma new_entry_fields sp :
  tokens sp = tl ts -> (String.length c <= 2)%nat ->
  exists sp', new_entry (Some c) sp = Done (created ts, sp').
Proof.
  intros H Hc. subst ts. cbn [tl] in H. unfold new_entry.
  assert (Ec : strcpy_code (Some c) sp = Done (c, sp)).
  { unfold strcpy_code, deref, bind, ret.
    apply Nat.leb_le in Hc. rewrite Hc. reflexivity. }
  rewrite (bind_done _ _ _ _ _ Ec).
  do 8 read_field H.
  eexists. reflexivity.
Qed.

End Entries.

(** ** The order on floating-point values *)

Section FloatOrder.

Lemma SFcompare_antisym a b :
  SFcompare b a = option_map CompOpp (SFcompare a b).
Proof.
  destruct a as [[]|[]| |[] ma ea], b as [[]|[]| |[] mb eb]; try reflexivity;
    simpl; rewrite (Z.compare_antisym ea eb);
    destruct (Z.compare ea eb); simpl; try reflexivity;
    rewrite (Pos.compare_cont_antisym ma mb Eq); reflexivity.
Qed.

Lemma SFcompare_refl a : a <> S754_nan -> SFcompare a a = Some Eq.
Proof.
  destruct a as [[]|[]| |[] m e]; intros H; try reflexivity; try congruence;
    simpl; rewrite Z.compare_refl;
    change (Pos.compare_cont Eq m m) with (Pos.compare m m);
    rewrite Pos.compare_refl; reflexivity.
Qed.

Lemma SFleb_refl a : a <> S754_nan -> SFleb a a = true.
Proof. intros H. unfold SFleb. rewrite SFcompare_refl by exact H. reflexivity. Qed.

Lemma SFltb_not_nan a b : SFltb a b = true -> a <> S754_nan /\ b <> S754_nan.
Proof.
  unfold SFltb. destruct a, b; simpl; intros H; split; congruence.
Qed.

Lemma SFltb_leb a b : SFltb a b = true -> SFleb a b = true.
Proof.
  unfold SFltb, SFleb. destruct (SFcompare a b) as [[]|]; congruence.
Qed.

(** Equal values are not greater one than the other. *)
Lemma SFeqb_not_fgt a b : SFeqb a b = true -> fgt a b = false /\ fgt b a = false.
Proof.
  unfold SFeqb, fgt, SFltb. rewrite (SFcompare_antisym a b).
  destruct (SFcompare a b) as [[]|]; simpl; intros H; split; congruence.
Qed.

Ltac order_cases :=
  repeat match goal with
         | H : context [Z.compare ?x ?y] |- _ =>
             destruct (Z.compare_spec x y); subst; simpl in H
         | |- context [Z.compare ?x ?y] =>
             destruct (Z.compare_spec x y); subst; simpl
         | H : context [Pos.compare ?x ?y] |- _ =>
             destruct (Pos.compare_spec x y); subst; simpl in H
         | |- context [Pos.compare ?x ?y] =>
             destruct (Pos.compare_spec x y); subst; simpl
         end;
  try reflexivity; try discriminate; try lia.

Lemma SFleb_trans a b c :
  SFleb a b = true -> SFleb b c = true -> SFleb a c = true.
Proof.
  unfold SFleb.
  destruct a as [[]|[]| |[] ma ea], b as [[]|[]| |[] mb eb],
           c as [[]|[]| |[] mc ec];
    simpl; try reflexivity; try discriminate;
    change (Pos.compare_cont Eq) with Pos.compare; intros Hab Hbc;
    order_cases.
Qed.

End FloatOrder.

(** ** The lines of a file *)

Section Lines.

Lemma fgets_aux_append n : forall s,
  (fst (fgets_aux n s) ++ snd (fgets_aux n s))%string = s.
Proof.
  induction n as [|n IH]; intros s; [reflexivity|].
  destruct s as [|c s]; [reflexivity|]. simpl.
  destruct (Ascii.eqb c "010"); [reflexivity|].
  specialize (IH s). destruct (fgets_aux n s) as [l r]. simpl in *.
  rewrite IH. reflexivity.
Qed.

Lemma fgets_aux_length n : forall s,
  (String.length (snd (fgets_aux n s)) <= String.length s)%nat.
Proof.
  induction n as [|n IH]; intros s; [simpl; lia|].
  destruct s as [|c s]; [simpl; lia|]. simpl.
  destruct (Ascii.eqb c "010"); [simpl; lia|].
  specialize (IH s). destruct (fgets_aux n s) as [l r]. simpl in *. lia.
Qed.

Lemma fgets_aux_rest n c s :
  (String.length (snd (fgets_aux (S n) (String c s))) <= String.length s)%nat.
Proof.
  simpl. destruct (Ascii.eqb c "010"); [simpl; lia|].
  pose proof (fgets_aux_length n s) as H.
  destruct (fgets_aux n s) as [l r]. exact H.
Qed.

(** Each [fgets] takes at least one character, so the fuel of
    [read_lines] never runs out before the file does. *)
Lemma read_lines_fuel n : forall m file,
  (String.length file <= n)%nat -> (String.length file <= m)%nat ->
  read_lines n file = read_lines m file.
Proof.
  induction n as [|n IH]; intros m file Hn Hm.
  - destruct file; simpl in Hn; [destruct m; reflexivity | lia].
  - destruct file as [|c s]; [destruct m; reflexivity|].
    destruct m as [|m]; [simpl in Hm; lia|].
    cbn [read_lines fgets]. pose proof (fgets_aux_rest (line_sz - 2) c s) as Hr.
    change (line_sz - 1)%nat with (S (line_sz - 2)).
    destruct (fgets_aux (S (line_sz - 2)) (String c s)) as [l r].
    simpl in Hr, Hn, Hm. rewrite (IH m r) by lia. reflexivity.
Qed.

(** The lines read are the whole file, in order. *)
Lemma read_lines_concat n : forall file,
  (String.length file <= n)%nat ->
  String.concat EmptyString (read_lines n file) = file.
Proof.
  enough (H : forall file, (String.length file <= n)%nat ->
            fold_right append EmptyString (read_lines n file) = file).
  { intros file Hn. rewrite <- (H file Hn) at 2.
    generalize (read_lines n file). intros ls.
    induction ls as [|l [|l' ls] IH]; [reflexivity | |].
    - simpl. induction l; simpl; congruence.
    - cbn [String.concat fold_right] in *. rewrite IH. reflexivity. }
  induction n as [|n IH]; intros file Hn.
  - destruct file; [reflexivity | simpl in Hn; lia].
  - destruct file as [|c s]; [reflexivity|].
    cbn [read_lines fgets]. pose proof (fgets_aux_rest (line_sz - 2) c s) as Hr.
    pose proof (fgets_aux_append (line_sz - 1) (String c s)) as Ha.
    change (line_sz - 1)%nat with (S (line_sz - 2)) in *.
    destruct (fgets_aux (S (line_sz - 2)) (String c s)) as [l r].
    simpl in Hr, Hn, Ha. cbn [fold_right]. rewrite IH by lia. exact Ha.
Qed.

Lemma fgets_aux_whole n : forall l rest,
  ends_line l = true -> (String.length l <= n)%nat ->
  fgets_aux n (l ++ rest) = (l, rest).
Proof.
  induction n as [|n IH]; intros l rest Hl Hn.
  - destruct l; [discriminate | simpl in Hn; lia].
  - destruct l as [|c l]; [discriminate|].
    cbn [append fgets_aux]. simpl in Hl, Hn.
    destruct l as [|c' l'].
    + rewrite Hl. reflexivity.
    + apply andb_true_iff in Hl as [Hc Hl].
      apply negb_true_iff in Hc. rewrite Hc.
      rewrite (IH (String c' l') rest Hl) by (simpl in *; lia). reflexivity.
Qed.

(** A file made of whole lines is read line by line. *)
Lemma read_lines_whole ls : forall n,
  forallb whole_line ls = true ->
  (List.length ls <= n)%nat ->
  read_lines n (fold_right append EmptyString ls) = ls.
Proof.
  induction ls as [|l ls IH]; intros n Hall Hn.
  - destruct n; reflexivity.
  - destruct n as [|n]; [simpl in Hn; lia|].
    simpl in Hall. apply andb_true_iff in Hall as [Hl Hall].
    unfold whole_line in Hl. apply andb_true_iff in Hl as [Hlen Hend].
    apply Nat.leb_le in Hlen.
    cbn [fold_right read_lines]. unfold fgets.
    destruct l as [|c l]; [discriminate|]. cbn [append].
    change (String c (l ++ fold_right append EmptyString ls))%string
      with (String c l ++ fold_right append EmptyString ls)%string.
    rewrite fgets_aux_whole by assumption.
    rewrite IH by (assumption || simpl in Hn; lia). reflexivity.
Qed.

(** The loop of [analyze_file] runs its body on the lines [fgets] cuts. *)
Lemma analyze_file_lines file states n heap :
  analyze_file file states n heap =
  analyze_lines (read_lines (String.length file) file) states n heap.
Proof.
  unfold analyze_file. generalize (String.length file). intros fuel.
  revert file states heap.
  induction fuel as [|fuel IH]; intros file states heap; [reflexivity|].
  cbn [analyze_loop read_lines].
  destruct (fgets line_sz file) as [[line file']|]; [|reflexivity].
  cbn [analyze_lines].
  destruct (analyze_line line states n heap) as [[s h]| |];
    [apply IH | reflexivity | reflexivity].
Qed.

End Lines.

(** ** The scan over the table *)

Section Scan.

(** The first [strtok] of a line gives its first field and leaves the
    others. *)
Lemma first_token line :
  exists sp, strtok delim (c_str line) = (hd_error (fields line), sp)
             /\ tokens sp = tl (fields line).
Proof. apply strtok_tokens. Qed.

(** The scan stops at the first entry whose code is the token. *)
Lemma scan_hit c info pre post heap sp : forall n,
  Forall (other c) pre -> code info = c -> (List.length pre < n)%nat ->
  scan n (Some c) (pre ++ Some info :: post) heap sp =
  match update_entry info sp with
  | Done (e, sp') => Done ((pre ++ Some e :: post, heap), sp')
  | Exit s o => Exit s o
  | Undef f => Undef f
  end.
Proof.
  induction pre as [|slot pre IH]; intros n Hpre Hc Hn.
  - destruct n as [|n]; [simpl in Hn; lia|].
    cbn [scan app]. unfold bind at 1. cbn [deref ret].
    rewrite Hc, String.eqb_refl. unfold bind, ret.
    destruct (update_entry info sp) as [[e sp']| |]; reflexivity.
  - destruct n as [|n]; [simpl in Hn; lia|].
    inversion Hpre as [|? ? (i & -> & Hi) Hpre']; subst.
    cbn [scan app]. unfold bind at 1. cbn [deref ret].
    apply String.eqb_neq in Hi. rewrite Hi.
    unfold bind at 1. rewrite IH; [|assumption|reflexivity|simpl in Hn; lia].
    destruct (update_entry info sp) as [[e sp']| |]; reflexivity.
Qed.

(** The scan stops at the first null pointer when no entry before it has
    the code of the token. *)
Lemma scan_new c pre post heap sp : forall n,
  Forall (other c) pre -> (List.length pre < n)%nat ->
  scan n (Some c) (pre ++ None :: post) heap sp =
  match heap with
  | O => Exit EXIT_FAILURE alloc_error
  | S heap' =>
      match new_entry (Some c) sp with
      | Done (e, sp') => Done ((pre ++ Some e :: post, heap'), sp')
      | Exit s o => Exit s o
      | Undef f => Undef f
      end
  end.
Proof.
  induction pre as [|slot pre IH]; intros n Hpre Hn.
  - destruct n as [|n]; [simpl in Hn; lia|].
    cbn [scan app]. destruct heap as [|heap']; [reflexivity|].
    unfold bind, ret.
    destruct (new_entry (Some c) sp) as [[e sp']| |]; reflexivity.
  - destruct n as [|n]; [simpl in Hn; lia|].
    inversion Hpre as [|? ? (i & -> & Hi) Hpre']; subst.
    cbn [scan app]. unfold bind at 1. cbn [deref ret].
    apply String.eqb_neq in Hi. rewrite Hi.
    unfold bind at 1. rewrite IH; [|assumption|simpl in Hn; lia].
    destruct heap as [|heap']; [reflexivity|].
    destruct (new_entry (Some c) sp) as [[e sp']| |]; reflexivity.
Qed.

(** The scan runs off the table when every slot holds another state. *)
Lemma scan_full c states heap sp :
  Forall (other c) states ->
  scan (List.length states) (Some c) states heap sp = Done ((states, heap), sp).
Proof.
  induction states as [|slot states IH]; intros Hall.
  - reflexivity.
  - inversion Hall as [|? ? (i & -> & Hi) Hall']; subst.
    cbn [scan List.length]. unfold bind at 1. cbn [deref ret].
    apply String.eqb_neq in Hi. rewrite Hi.
    unfold bind. rewrite IH by assumption. reflexivity.
Qed.

(** On a table of entries followed by free slots, a well-formed line does
    what [place] says, as long as [malloc] can serve the free slots. *)
Lemma scan_table ts sp : forall infos free heap,
  (9 <= List.length ts)%nat -> (String.length (field 0 ts) <= 2)%nat ->
  tokens sp = tl ts -> (free <= heap)%nat ->
  exists sp',
    scan (List.length infos + free) (Some (field 0 ts)) (table infos free) heap sp =
    Done ((table (fst (place ts infos free)) (snd (place ts infos free)),
           (heap - (free - snd (place ts infos free)))%nat), sp').
Proof.
  intros infos free heap H9 Hc Hsp.
  destruct ts as [|c [|t1 [|t2 [|t3 [|t4 [|t5 [|t6 [|t7 [|t8 extra]]]]]]]]];
    simpl in H9; try lia.
  set (ts := c :: t1 :: t2 :: t3 :: t4 :: t5 :: t6 :: t7 :: t8 :: extra) in *.
  change (field 0 ts) with c in *.
  revert free heap.
  induction infos as [|info infos IH]; intros free heap Hheap.
  - destruct free as [|k].
    + exists sp. simpl. rewrite Nat.sub_0_r. reflexivity.
    + destruct heap as [|h]; [lia|].
      destruct (new_entry_fields c t1 t2 t3 t4 t5 t6 t7 t8 extra sp Hsp Hc)
        as (sp' & E).
      exists sp'. cbn [List.length Nat.add table map app repeat scan place fst snd].
      unfold bind, ret. fold ts in E. rewrite E.
      replace (S h - (S k - k))%nat with h by lia. reflexivity.
  - cbn [List.length Nat.add table map app scan place].
    unfold bind at 1. cbn [deref ret].
    change (field 0 ts) with c.
    destruct (String.eqb (code info) c) eqn:Ec.
    + destruct (update_entry_fields c t1 t2 t3 t4 t5 t6 t7 t8 extra info sp Hsp)
        as (sp' & E).
      exists sp'. unfold bind, ret. fold ts in E. rewrite E.
      cbn [fst snd]. rewrite Nat.sub_diag, Nat.sub_0_r. reflexivity.
    + destruct (IH free heap Hheap) as (sp' & E).
      exists sp'. unfold bind, ret. fold (table infos free). rewrite E.
      destruct (place ts infos free) as [r k]. reflexivity.
Qed.

Lemma analyze_line_table line infos free heap :
  well_formed line = true -> (free <= heap)%nat ->
  analyze_line line (table infos free) (List.length infos + free) heap =
  Done (table (fst (place (fields line) infos free))
              (snd (place (fields line) infos free)),
        (heap - (free - snd (place (fields line) infos free)))%nat).
Proof.
  intros Hwf Hheap. unfold analyze_line.
  destruct (first_token line) as (sp & E & T). rewrite E.
  pose proof Hwf as Hwf'. unfold well_formed in Hwf'.
  apply andb_true_iff in Hwf' as [H9 Hc].
  apply Nat.leb_le in H9. apply Nat.leb_le in Hc.
  assert (Hhd : hd_error (fields line) = Some (field 0 (fields line))).
  { destruct (fields line); [simpl in H9; lia | reflexivity]. }
  rewrite Hhd.
  destruct (scan_table (fields line) sp infos free heap H9 Hc T Hheap)
    as (sp' & ->).
  reflexivity.
Qed.

End Scan.

(** ** Discovery order *)

Section Discovery.

Lemma mem_In c s : mem c s = true <-> In c s.
Proof.
  unfold mem. rewrite existsb_exists. split.
  - intros (x & Hx & E). apply String.eqb_eq in E. subst. exact Hx.
  - intros H. exists c. split; [exact H | apply String.eqb_refl].
Qed.

Lemma mem_false c s : mem c s = false <-> ~ In c s.
Proof.
  rewrite <- mem_In. destruct (mem c s); split; intros; congruence.
Qed.

Lemma filter_filter {A} (f g : A -> bool) l :
  filter f (filter g l) = filter (fun x => (g x && f x)%bool) l.
Proof.
  induction l as [|x l IH]; [reflexivity|].
  simpl. destruct (g x); simpl; [destruct (f x)|]; rewrite IH; reflexivity.
Qed.

Lemma first_seen_app s l :
  first_seen (s ++ l) =
  first_seen s ++ filter (fun d => negb (mem d s)) (first_seen l).
Proof.
  induction s as [|c s IH]; simpl.
  - symmetry. apply forallb_filter_id, forallb_forall. reflexivity.
  - rewrite IH, filter_app, filter_filter. do 2 f_equal.
    apply filter_ext. intros d. unfold mem. simpl.
    destruct (String.eqb d c), (existsb (String.eqb d) s); reflexivity.
Qed.

Lemma first_seen_NoDup s : NoDup s -> first_seen s = s.
Proof.
  induction 1 as [|c s Hc _ IH]; simpl; [reflexivity|].
  rewrite IH. f_equal. apply forallb_filter_id, forallb_forall.
  intros d Hd. apply negb_true_iff, String.eqb_neq. intros ->. auto.
Qed.

Lemma first_seen_known c s l :
  mem c s = true ->
  first_seen (s ++ c :: l) = first_seen (s ++ l).
Proof.
  intros Hc. rewrite !first_seen_app. f_equal. simpl.
  assert (E : negb (mem c s) = false) by (rewrite Hc; reflexivity).
  rewrite E, filter_filter. apply filter_ext_in. intros d _.
  destruct (String.eqb d c) eqn:Ed; simpl; [|reflexivity].
  apply String.eqb_eq in Ed. subst. exact (eq_sym E).
Qed.

Lemma first_seen_full s l :
  NoDup s -> firstn (List.length s) (first_seen (s ++ l)) = s.
Proof.
  intros Hs. rewrite first_seen_app, first_seen_NoDup by assumption.
  rewrite firstn_app, Nat.sub_diag, firstn_all. simpl. apply app_nil_r.
Qed.

Lemma place_length ts : forall infos free,
  (List.length (fst (place ts infos free)) + snd (place ts infos free) =
   List.length infos + free)%nat.
Proof.
  induction infos as [|info infos IH]; intros free; simpl.
  - destruct free; simpl; lia.
  - destruct (String.eqb (code info) (field 0 ts)); simpl; [lia|].
    specialize (IH free). destruct (place ts infos free); simpl in *. lia.
Qed.

Lemma place_free ts : forall infos free,
  (snd (place ts infos free) <= free)%nat.
Proof.
  induction infos as [|info infos IH]; intros free; simpl.
  - destruct free; simpl; lia.
  - destruct (String.eqb (code info) (field 0 ts)); simpl; [lia|].
    specialize (IH free). destruct (place ts infos free); simpl in *. lia.
Qed.

(** The codes in the table after one line. *)
Lemma place_codes ts : forall infos free,
  map code (fst (place ts infos free)) =
  if mem (field 0 ts) (map code infos) then map code infos
  else match free with
       | O => map code infos
       | S _ => map code infos ++ [field 0 ts]
       end.
Proof.
  induction infos as [|info infos IH]; intros free; simpl.
  - destruct free; reflexivity.
  - unfold mem. simpl. rewrite (String.eqb_sym (field 0 ts)).
    destruct (String.eqb (code info) (field 0 ts)); simpl; [reflexivity|].
    specialize (IH free). destruct (place ts infos free) as [r k].
    simpl in *. rewrite IH. unfold mem.
    destruct (existsb (String.eqb (field 0 ts)) (map code infos));
      [reflexivity|]. destruct free; reflexivity.
Qed.

Lemma place_NoDup ts infos free :
  NoDup (map code infos) -> NoDup (map code (fst (place ts infos free))).
Proof.
  intros H. rewrite place_codes.
  destruct (mem (field 0 ts) (map code infos)) eqn:E; [exact H|].
  destruct free; [exact H|].
  apply mem_false in E. apply NoDup_app; [exact H | | ].
  - constructor; [intros [] | constructor].
  - intros x Hx [<-|[]]. contradiction.
Qed.

Lemma place_all_length tss : forall infos free,
  (List.length (fst (place_all tss infos free)) + snd (place_all tss infos free) =
   List.length infos + free)%nat.
Proof.
  induction tss as [|ts tss IH]; intros infos free; simpl; [reflexivity|].
  pose proof (place_length ts infos free) as H.
  destruct (place ts infos free) as [i k]. simpl in H. rewrite IH. exact H.
Qed.

Lemma place_all_free tss : forall infos free,
  (snd (place_all tss infos free) <= free)%nat.
Proof.
  induction tss as [|ts tss IH]; intros infos free; simpl; [lia|].
  pose proof (place_free ts infos free) as H.
  destruct (place ts infos free) as [i k]. simpl in H.
  specialize (IH i k). lia.
Qed.

Lemma place_all_NoDup tss : forall infos free,
  NoDup (map code infos) -> NoDup (map code (fst (place_all tss infos free))).
Proof.
  induction tss as [|ts tss IH]; intros infos free H; simpl; [exact H|].
  pose proof (place_NoDup ts infos free H) as H1.
  destruct (place ts infos free) as [i k]. apply IH. exact H1.
Qed.

(** The codes in the table after a sequence of lines: the first codes met,
    as many as the table has room for. *)
Lemma place_all_codes tss : forall infos free,
  NoDup (map code infos) ->
  map code (fst (place_all tss infos free)) =
  firstn (List.length infos + free)
    (first_seen (map code infos ++ map (field 0) tss)).
Proof.
  induction tss as [|ts tss IH]; intros infos free Hnd.
  - simpl. rewrite app_nil_r, first_seen_NoDup by assumption.
    rewrite firstn_all2; [reflexivity | rewrite length_map; lia].
  - cbn [place_all map].
    pose proof (place_codes ts infos free) as Hc.
    pose proof (place_length ts infos free) as Hl.
    pose proof (place_NoDup ts infos free Hnd) as Hn.
    destruct (place ts infos free) as [i k]. cbn [fst snd] in *.
    rewrite (IH i k Hn), Hl, Hc.
    destruct (mem (field 0 ts) (map code infos)) eqn:E.
    + rewrite first_seen_known by assumption. reflexivity.
    + destruct free as [|free'].
      * rewrite Nat.add_0_r.
        rewrite <- (length_map code infos).
        rewrite !first_seen_full by assumption. reflexivity.
      * rewrite <- app_assoc. reflexivity.
Qed.

Lemma place_nonempty ts infos free :
  (0 < List.length infos + free)%nat -> fst (place ts infos free) <> [].
Proof.
  destruct infos as [|info infos]; simpl.
  - destruct free; [lia | discriminate].
  - intros _. destruct (String.eqb (code info) (field 0 ts)); [discriminate|].
    destruct (place ts infos free). discriminate.
Qed.

Lemma place_all_nonempty tss : forall infos free,
  infos <> [] -> fst (place_all tss infos free) <> [].
Proof.
  induction tss as [|ts tss IH]; intros infos free H; simpl; [exact H|].
  pose proof (place_nonempty ts infos free) as Hp.
  destruct (place ts infos free) as [i k]. apply IH. apply Hp.
  destruct infos; [congruence | simpl; lia].
Qed.

End Discovery.

(** ** Lines, files and the whole run *)

Section Run.

Lemma analyze_lines_table lines : forall infos free heap,
  all_well_formed lines = true -> (free <= heap)%nat ->
  analyze_lines lines (table infos free) (List.length infos + free) heap =
  Done (table (fst (place_all (map fields lines) infos free))
              (snd (place_all (map fields lines) infos free)),
        (heap - (free - snd (place_all (map fields lines) infos free)))%nat).
Proof.
  induction lines as [|line lines IH]; intros infos free heap Hwf Hheap.
  - simpl. rewrite Nat.sub_diag, Nat.sub_0_r. reflexivity.
  - simpl in Hwf. apply andb_true_iff in Hwf as [Hl Hwf].
    cbn [analyze_lines map place_all].
    rewrite analyze_line_table by assumption.
    pose proof (place_length (fields line) infos free) as Hlen.
    pose proof (place_free (fields line) infos free) as Hfree.
    destruct (place (fields line) infos free) as [i k]. cbn [fst snd] in *.
    rewrite <- Hlen. rewrite IH by (assumption || lia).
    pose proof (place_all_free (map fields lines) i k) as Hk.
    do 2 f_equal. lia.
Qed.

Lemma analyze_lines_app l1 l2 states n heap :
  analyze_lines (l1 ++ l2) states n heap =
  match analyze_lines l1 states n heap with
  | Done (states', heap') => analyze_lines l2 states' n heap'
  | e => e
  end.
Proof.
  revert states heap.
  induction l1 as [|l l1 IH]; intros states heap; simpl; [reflexivity|].
  destruct (analyze_line l states n heap) as [[s h]| |]; [apply IH| |];
    reflexivity.
Qed.

Lemma place_all_app l1 l2 infos free :
  place_all (l1 ++ l2) infos free =
  place_all l2 (fst (place_all l1 infos free)) (snd (place_all l1 infos free)).
Proof.
  revert infos free.
  induction l1 as [|ts l1 IH]; intros infos free; simpl; [reflexivity|].
  destruct (place ts infos free) as [i k]. apply IH.
Qed.

Lemma main_loop_table fopen args : forall infos free heap out,
  all_well_formed (all_lines fopen args) = true ->
  (free <= heap)%nat -> (List.length infos + free)%nat = NUM_STATES ->
  main_loop fopen args (table infos free) heap out =
  inr (table (fst (place_all (map fields (all_lines fopen args)) infos free))
             (snd (place_all (map fields (all_lines fopen args)) infos free)),
       out ++ map (file_message fopen) args).
Proof.
  induction args as [|path args IH]; intros infos free heap out Hwf Hheap Hn.
  - simpl. rewrite app_nil_r. reflexivity.
  - cbn [main_loop all_lines flat_map map] in *. unfold file_message at 1.
    destruct (fopen path) as [file|] eqn:Ef.
    + unfold all_well_formed in Hwf. rewrite forallb_app in Hwf.
      apply andb_true_iff in Hwf as [Hfile Hrest].
      rewrite analyze_file_lines, <- Hn.
      rewrite analyze_lines_table by assumption.
      rewrite map_app, place_all_app.
      set (lines := map fields (read_lines (String.length file) file)).
      pose proof (place_all_length lines infos free) as Hlen.
      pose proof (place_all_free lines infos free) as Hfree.
      destruct (place_all lines infos free) as [i k]. cbn [fst snd] in *.
      rewrite IH by (assumption || lia).
      rewrite <- app_assoc. reflexivity.
    + simpl in Hwf. rewrite IH by assumption.
      rewrite <- app_assoc. reflexivity.
Qed.

Lemma entries_free free : entries free (repeat None free) = Some [].
Proof. induction free as [|k IH]; simpl; [|rewrite IH]; reflexivity. Qed.

Lemma entries_table infos free :
  entries (List.length infos + free) (table infos free) = Some infos.
Proof.
  induction infos as [|info infos IH]; simpl.
  - apply entries_free.
  - unfold table in IH. rewrite IH. reflexivity.
Qed.

(** A run over well-formed lines, with memory for a full table, returns
    0 from [main]; it prints the report of the entries [place_all] gives
    when there are any. *)
Lemma main_table fopen heap prog args :
  args <> [] ->
  all_well_formed (all_lines fopen args) = true ->
  (NUM_STATES <= heap)%nat ->
  main fopen heap prog args =
  Terminated 0
    (map (file_message fopen) args ++
     match all_lines fopen args with
     | [] => []
     | _ => report_of
              (fst (place_all (map fields (all_lines fopen args)) [] NUM_STATES))
     end).
Proof.
  intros Hargs Hwf Hheap. unfold main.
  destruct args as [|a args]; [congruence|].
  change (repeat None NUM_STATES) with (table [] NUM_STATES).
  rewrite main_loop_table by (assumption || reflexivity).
  set (ls := all_lines fopen (a :: args)) in *.
  pose proof (place_all_length (map fields ls) [] NUM_STATES) as Hlen.
  destruct ls as [|l lines].
  - simpl. rewrite app_nil_r. reflexivity.
  - assert (Hne : fst (place_all (map fields (l :: lines)) [] NUM_STATES) <> []).
    { cbn [map place_all].
      pose proof (place_nonempty (fields l) [] NUM_STATES) as Hp.
      destruct (place (fields l) [] NUM_STATES) as [i k].
      apply place_all_nonempty, Hp. unfold NUM_STATES. simpl. lia. }
    destruct (place_all (map fields (l :: lines)) [] NUM_STATES) as [i k].
    cbn [fst snd] in *.
    destruct i as [|info i]; [congruence|].
    cbn [table map app]. unfold print_report.
    change (Some info :: map Some i ++ repeat None k) with (table (info :: i) k).
    simpl in Hlen. rewrite <- Hlen.
    change (S (List.length i + k)) with (List.length (info :: i) + k)%nat.
    rewrite entries_table. reflexivity.
Qed.

End Run.

(** ** One line against any table *)

Section Line.

Variables (line c t1 t2 t3 t4 t5 t6 t7 t8 : string) (extra : list string).

Hypothesis Hfields :
  fields line = c :: t1 :: t2 :: t3 :: t4 :: t5 :: t6 :: t7 :: t8 :: extra.

(** A line whose state has an entry is added to that entry. *)
Lemma analyze_line_hit pre info post n heap :
  Forall (other c) pre -> code info = c -> (List.length pre < n)%nat ->
  analyze_line line (pre ++ Some info :: post) n heap =
  Done (pre ++ Some (folded info (fields line)) :: post, heap).
Proof.
  intros Hpre Hc Hn. unfold analyze_line.
  destruct (first_token line) as (sp & E & T). rewrite E.
  rewrite Hfields in *. cbn [hd_error].
  rewrite scan_hit by assumption.
  destruct (update_entry_fields c t1 t2 t3 t4 t5 t6 t7 t8 extra info sp T)
    as (sp' & ->).
  reflexivity.
Qed.

(** A line whose state has no entry before the first free slot gets a new
    entry there, if [malloc] grants it. *)
Lemma analyze_line_new pre post n heap :
  Forall (other c) pre -> (List.length pre < n)%nat ->
  (String.length c <= 2)%nat ->
  analyze_line line (pre ++ None :: post) n (S heap) =
  Done (pre ++ Some (created (fields line)) :: post, heap).
Proof.
  intros Hpre Hn Hc. unfold analyze_line.
  destruct (first_token line) as (sp & E & T). rewrite E.
  rewrite Hfields in *. cbn [hd_error].
  rewrite scan_new by assumption.
  destruct (new_entry_fields c t1 t2 t3 t4 t5 t6 t7 t8 extra sp T Hc)
    as (sp' & ->).
  reflexivity.
Qed.

End Line.

(** A line whose state has no entry in a table without a free slot changes
    nothing; the fields after the first are not even read. *)
Lemma analyze_line_full line c states heap :
  hd_error (fields line) = Some c -> Forall (other c) states ->
  analyze_line line states (List.length states) heap = Done (states, heap).
Proof.
  intros Hc Hall. unfold analyze_line.
  destruct (first_token line) as (sp & E & _). rewrite E, Hc.
  rewrite scan_full by assumption. reflexivity.
Qed.

Lemma others_of_entries c infos :
  mem c (map code infos) = false -> Forall (other c) (map Some infos).
Proof.
  intros H. apply mem_false in H. apply Forall_forall.
  intros slot Hs. apply in_map_iff in Hs as (info & <- & Hi).
  exists info. split; [reflexivity|].
  intros E. apply H. rewrite <- E. apply in_map. exact Hi.
Qed.

(** ** Reading a decimal numeral *)

Section Numerals.

Ltac next_digit IH :=
  cbn [NilEmpty.string_of_uint Pos.of_uint_acc Pos.of_uint];
  match goal with
  | |- exists n', digits ?a ?n (String ?c ?s) = _ =>
      let v := eval vm_compute in (digit_val c) in
      change (digits a n (String c s)) with (digits (10 * a + v) (S n) s)
  end.

Lemma digits_of_uint_acc d : forall p n,
  exists n',
    digits (Z.pos p) n (NilEmpty.string_of_uint d) =
    (Z.pos (Pos.of_uint_acc d p), n', EmptyString).
Proof.
  induction d as [|d IH|d IH|d IH|d IH|d IH|d IH|d IH|d IH|d IH|d IH];
    intros p n; [exists n; reflexivity|..]; next_digit IH.
  - destruct (IH (10 * p)%positive (S n)) as [n' E].
    exists n'. rewrite <- E. f_equal; lia.
  - destruct (IH (1 + 10 * p)%positive (S n)) as [n' E].
    exists n'. rewrite <- E. f_equal; lia.
  - destruct (IH (2 + 10 * p)%positive (S n)) as [n' E].
    exists n'. rewrite <- E. f_equal; lia.
  - destruct (IH (3 + 10 * p)%positive (S n)) as [n' E].
    exists n'. rewrite <- E. f_equal; lia.
  - destruct (IH (4 + 10 * p)%positive (S n)) as [n' E].
    exists n'. rewrite <- E. f_equal; lia.
  - destruct (IH (5 + 10 * p)%positive (S n)) as [n' E].
    exists n'. rewrite <- E. f_equal; lia.
  - destruct (IH (6 + 10 * p)%positive (S n)) as [n' E].
    exists n'. rewrite <- E. f_equal; lia.
  - destruct (IH (7 + 10 * p)%positive (S n)) as [n' E].
    exists n'. rewrite <- E. f_equal; lia.
  - destruct (IH (8 + 10 * p)%positive (S n)) as [n' E].
    exists n'. rewrite <- E. f_equal; lia.
  - destruct (IH (9 + 10 * p)%positive (S n)) as [n' E].
    exists n'. rewrite <- E. f_equal; lia.
Qed.

Lemma digits_of_uint d : forall n,
  exists n',
    digits 0 n (NilEmpty.string_of_uint d) = (Z.of_uint d, n', EmptyString).
Proof.
  unfold Z.of_uint.
  induction d as [|d IH|d IH|d IH|d IH|d IH|d IH|d IH|d IH|d IH|d IH];
    intros n; [exists n; reflexivity|..]; next_digit IH;
    [apply IH | apply digits_of_uint_acc ..].
Qed.

(** A numeral starts with a digit. *)
Lemma numeral_head d :
  exists c s, NilZero.string_of_uint d = String c s
    /\ isspace c = false /\ take_sign (String c s) = (false, String c s).
Proof.
  destruct d; simpl; eexists _, _; repeat split; reflexivity.
Qed.

Lemma strtoll_numeral d :
  Z.of_uint d <= LLONG_MAX ->
  strtoll (NilZero.string_of_uint d) = Z.of_uint d
  /\ strtoll (String "-" (NilZero.string_of_uint d)) = - Z.of_uint d.
Proof.
  intros Hmax.
  assert (Hlow : 0 <= Z.of_uint d) by (unfold Z.of_uint; lia).
  assert (Hd : exists n', digits 0 O (NilZero.string_of_uint d)
                          = (Z.of_uint d, n', EmptyString)).
  { destruct d; try apply (digits_of_uint _ O). exists 1%nat. reflexivity. }
  destruct Hd as (n' & Hd).
  destruct (numeral_head d) as (c & s & E & Hsp & Hsign).
  unfold strtoll. split.
  - rewrite E. cbn [skip_space]. rewrite Hsp, Hsign, <- E, Hd.
    unfold LLONG_MIN, LLONG_MAX in *. lia.
  - cbn [skip_space]. change (isspace "-") with false. cbn [take_sign].
    rewrite Hd. unfold LLONG_MIN, LLONG_MAX in *. lia.
Qed.

(** [atoll] reads back the numeral of any integer of the type. *)
Lemma atoll_decimal z : LLONG_MIN <= z <= LLONG_MAX -> atoll (decimal z) = z.
Proof.
  intros Hz. unfold atoll, decimal.
  pose proof (DecimalZ.of_to z) as Hof.
  destruct (Z.to_int z) as [d|d]; simpl in Hof; cbn [NilZero.string_of_int].
  - rewrite <- Hof in Hz |- *. apply strtoll_numeral. lia.
  - rewrite <- Hof in Hz |- *.
    destruct (Z.eq_dec (Z.of_uint d) (2 ^ 63)) as [Emin|Emin].
    + assert (Hd : exists n', digits 0 O (NilZero.string_of_uint d)
                             = (Z.of_uint d, n', EmptyString)).
      { destruct d; try apply (digits_of_uint _ O). exists 1%nat. reflexivity. }
      destruct Hd as (n' & Hd).
      unfold strtoll. cbn [skip_space]. change (isspace "-") with false.
      cbn [take_sign]. rewrite Hd, Emin. reflexivity.
    + apply strtoll_numeral. unfold LLONG_MIN, LLONG_MAX in *. lia.
Qed.

End Numerals.

(** ** Memory *)

Section Memory.

Lemma place_snd ts : forall infos free,
  snd (place ts infos free) =
  if mem (field 0 ts) (map code infos) then free else Nat.pred free.
Proof.
  induction infos as [|info infos IH]; intros free; simpl.
  - destruct free; reflexivity.
  - unfold mem. simpl. rewrite (String.eqb_sym (field 0 ts)).
    destruct (String.eqb (code info) (field 0 ts)); simpl; [reflexivity|].
    specialize (IH free). destruct (place ts infos free) as [r k].
    simpl in *. exact IH.
Qed.

(** A well-formed line is filed whenever [malloc] is not asked for an
    entry it cannot grant. *)
Lemma scan_table_heap ts sp : forall infos free heap,
  (9 <= List.length ts)%nat -> (String.length (field 0 ts) <= 2)%nat ->
  tokens sp = tl ts ->
  (heap = O -> mem (field 0 ts) (map code infos) = true \/ free = O) ->
  exists sp',
    scan (List.length infos + free) (Some (field 0 ts)) (table infos free) heap sp =
    Done ((table (fst (place ts infos free)) (snd (place ts infos free)),
           (heap - (free - snd (place ts infos free)))%nat), sp').
Proof.
  intros infos free heap H9 Hc Hsp.
  destruct ts as [|c [|t1 [|t2 [|t3 [|t4 [|t5 [|t6 [|t7 [|t8 extra]]]]]]]]];
    simpl in H9; try lia.
  set (ts := c :: t1 :: t2 :: t3 :: t4 :: t5 :: t6 :: t7 :: t8 :: extra) in *.
  change (field 0 ts) with c in *.
  revert free heap.
  induction infos as [|info infos IH]; intros free heap Hheap.
  - destruct free as [|k].
    + exists sp. simpl. rewrite Nat.sub_0_r. reflexivity.
    + destruct heap as [|h].
      { destruct (Hheap eq_refl) as [H|H]; discriminate. }
      destruct (new_entry_fields c t1 t2 t3 t4 t5 t6 t7 t8 extra sp Hsp Hc)
        as (sp' & E).
      exists sp'. cbn [List.length Nat.add table map app repeat scan place fst snd].
      unfold bind, ret. fold ts in E. rewrite E.
      replace (S h - (S k - k))%nat with h by lia. reflexivity.
  - cbn [List.length Nat.add table map app scan place].
    unfold bind at 1. cbn [deref ret].
    change (field 0 ts) with c.
    destruct (String.eqb (code info) c) eqn:Ec.
    + destruct (update_entry_fields c t1 t2 t3 t4 t5 t6 t7 t8 extra info sp Hsp)
        as (sp' & E).
      exists sp'. unfold bind, ret. fold ts in E. rewrite E.
      cbn [fst snd]. rewrite Nat.sub_diag, Nat.sub_0_r. reflexivity.
    + destruct (IH free heap) as (sp' & E).
      { intros H0. destruct (Hheap H0) as [H|H]; [left | right; exact H].
        unfold mem in *. simpl in H. rewrite String.eqb_sym, Ec in H. exact H. }
      exists sp'. unfold bind, ret. fold (table infos free). rewrite E.
      destruct (place ts infos free) as [r k]. reflexivity.
Qed.

Lemma analyze_line_heap line infos free heap :
  well_formed line = true ->
  (heap = O -> mem (region_code line) (map code infos) = true \/ free = O) ->
  analyze_line line (table infos free) (List.length infos + free) heap =
  Done (table (fst (place (fields line) infos free))
              (snd (place (fields line) infos free)),
        (heap - (free - snd (place (fields line) infos free)))%nat).
Proof.
  intros Hwf Hheap. unfold analyze_line.
  destruct (first_token line) as (sp & E & T). rewrite E.
  unfold well_formed in Hwf. apply andb_true_iff in Hwf as [H9 Hc].
  apply Nat.leb_le in H9. apply Nat.leb_le in Hc.
  assert (Hhd : hd_error (fields line) = Some (field 0 (fields line))).
  { destruct (fields line); [simpl in H9; lia | reflexivity]. }
  rewrite Hhd.
  destruct (scan_table_heap (fields line) sp infos free heap H9 Hc T Hheap)
    as (sp' & ->).
  reflexivity.
Qed.

(** A line of a new state, with a slot free and no memory left, ends the
    program, whatever else the line holds. *)
Lemma analyze_line_no_memory line c infos free :
  hd_error (fields line) = Some c ->
  mem c (map code infos) = false ->
  analyze_line line (table infos (S free)) (List.length infos + S free) 0 =
  Exit EXIT_FAILURE alloc_error.
Proof.
  intros Hc Hmem. unfold analyze_line.
  destruct (first_token line) as (sp & E & _). rewrite E, Hc.
  unfold table. cbn [repeat].
  rewrite scan_new;
    [reflexivity | apply others_of_entries, Hmem | rewrite length_map; lia].
Qed.

(** A run stops for lack of memory exactly when it needs more entries
    than [malloc] grants. *)
Lemma analyze_lines_heap lines : forall infos free heap,
  all_well_formed lines = true ->
  (heap < free - snd (place_all (map fields lines) infos free) ->
   analyze_lines lines (table infos free) (List.length infos + free) heap =
   Exit EXIT_FAILURE alloc_error)%nat
  /\ (free - snd (place_all (map fields lines) infos free) <= heap ->
      analyze_lines lines (table infos free) (List.length infos + free) heap =
      Done (table (fst (place_all (map fields lines) infos free))
                  (snd (place_all (map fields lines) infos free)),
            heap - (free - snd (place_all (map fields lines) infos free))))%nat.
Proof.
  induction lines as [|line lines IH]; intros infos free heap Hwf.
  - simpl. split; [lia|]. intros _. rewrite Nat.sub_diag, Nat.sub_0_r.
    reflexivity.
  - simpl in Hwf. apply andb_true_iff in Hwf as [Hl Hwf].
    cbn [analyze_lines map place_all].
    pose proof (place_snd (fields line) infos free) as Hk.
    pose proof (place_length (fields line) infos free) as Hlen.
    pose proof (analyze_line_heap line infos free heap Hl) as Hstep.
    assert (Hhd : hd_error (fields line) = Some (region_code line)).
    { unfold well_formed in Hl. apply andb_true_iff in Hl as [H9 _].
      apply Nat.leb_le in H9. unfold region_code.
      destruct (fields line); [simpl in H9; lia | reflexivity]. }
    pose proof (fun f => analyze_line_no_memory line (region_code line) infos f Hhd)
      as Hexit.
    fold (region_code line) in Hk.
    destruct (place (fields line) infos free) as [i k]. cbn [fst snd] in *.
    pose proof (place_all_free (map fields lines) i k) as Hfinal.
    destruct (IH i k (heap - (free - k))%nat Hwf) as [IH1 IH2].
    rewrite Hlen in IH1, IH2.
    destruct (mem (region_code line) (map code infos)) eqn:Em.
    + subst k. rewrite Hstep by (intros _; left; reflexivity).
      rewrite Nat.sub_diag, Nat.sub_0_r in *. split; [exact IH1 | exact IH2].
    + destruct free as [|free'].
      * simpl in Hk. subst k. rewrite Hstep by (intros _; right; reflexivity).
        rewrite Nat.sub_diag, Nat.sub_0_r in *. split; [exact IH1 | exact IH2].
      * simpl in Hk. subst k. destruct heap as [|h].
        -- rewrite (Hexit free' eq_refl). split; [reflexivity | lia].
        -- rewrite Hstep by discriminate.
           replace (S h - (S free' - free'))%nat with h in * by lia.
           split; intros H.
           ++ apply IH1. lia.
           ++ rewrite IH2 by lia. do 2 f_equal. lia.
Qed.

End Memory.

(** ** Every entry is the summary of the lines of its state *)

Section Groups.

Lemma group_app c a b : group c (a ++ b) = group c a ++ group c b.
Proof. apply filter_app. Qed.

Lemma group_none c tss :
  (forall ts, In ts tss -> field 0 ts <> c) -> group c tss = [].
Proof.
  induction tss as [|ts tss IH]; intros H; [reflexivity|].
  simpl. destruct (String.eqb (field 0 ts) c) eqn:E.
  - apply String.eqb_eq in E. exfalso. apply (H ts); [left; reflexivity | exact E].
  - apply IH. intros x Hx. apply H. right. exact Hx.
Qed.

Lemma summary_snoc L ts info :
  summary L = Some info -> summary (L ++ [ts]) = Some (folded info ts).
Proof.
  destruct L as [|h r]; [discriminate|]. simpl. intros H.
  inversion H; subst. rewrite fold_left_app. reflexivity.
Qed.

(** Where the entries after a line come from. *)
Lemma place_In ts x : forall infos free,
  NoDup (map code infos) -> In x (fst (place ts infos free)) ->
  (In x infos /\ code x <> field 0 ts)
  \/ (exists info, In info infos /\ code info = field 0 ts
                   /\ x = folded info ts)
  \/ (x = created ts /\ mem (field 0 ts) (map code infos) = false
      /\ (0 < free)%nat).
Proof.
  induction infos as [|info infos IH]; intros free Hnd Hin.
  - destruct free as [|k]; simpl in Hin; [destruct Hin|].
    destruct Hin as [<-|[]]. right. right. repeat split. lia.
  - simpl in Hnd. inversion Hnd as [|? ? Hni Hnd']; subst.
    simpl in Hin. destruct (String.eqb (code info) (field 0 ts)) eqn:E.
    + apply String.eqb_eq in E. destruct Hin as [<-|Hin].
      * right. left. exists info. repeat split; [left; reflexivity | exact E].
      * left. split; [right; exact Hin|].
        intros Hx. apply Hni. rewrite E, <- Hx. apply in_map, Hin.
    + destruct (place ts infos free) as [r k] eqn:Ep. simpl in Hin.
      destruct Hin as [<-|Hin].
      * left. split; [left; reflexivity | apply String.eqb_neq, E].
      * specialize (IH free Hnd'). rewrite Ep in IH.
        destruct (IH Hin) as [[H1 H2]|[(i & H1 & H2 & H3)|(H1 & H2 & H3)]].
        -- left. split; [right; exact H1 | exact H2].
        -- right. left. exists i. repeat split; [right; exact H1 | exact H2 | exact H3].
        -- right. right. repeat split; [exact H1 | | exact H3].
           unfold mem in *. simpl. rewrite String.eqb_sym, E. exact H2.
Qed.

Lemma place_mem ts c infos free :
  mem c (map code infos) = true ->
  mem c (map code (fst (place ts infos free))) = true.
Proof.
  intros H. rewrite place_codes.
  destruct (mem (field 0 ts) (map code infos)); [exact H|].
  destruct free; [exact H|].
  apply mem_In. apply in_or_app. left. apply mem_In, H.
Qed.

Lemma place_settled ts infos free seen :
  settled infos free seen ->
  settled (fst (place ts infos free)) (snd (place ts infos free)) (seen ++ [ts]).
Proof.
  intros (Hnd & Hseen & Hsum). split; [|split].
  - apply place_NoDup, Hnd.
  - intros x Hx. apply in_app_or in Hx as [Hx|[<-|[]]].
    + destruct (Hseen x Hx) as [Hm|Hf].
      * left. apply place_mem, Hm.
      * right. pose proof (place_free ts infos free). lia.
    + rewrite place_codes.
      destruct (mem (field 0 ts) (map code infos)) eqn:Em; [left; exact Em|].
      destruct free as [|k].
      * right. pose proof (place_free ts infos 0). lia.
      * left. apply mem_In, in_or_app. right. left. reflexivity.
  - intros x Hx. rewrite group_app.
    destruct (place_In ts x infos free Hnd Hx)
      as [[H1 H2]|[(i & H1 & H2 & ->)|(-> & H2 & H3)]].
    + replace (group (code x) [ts]) with (@nil (list string)).
      * rewrite app_nil_r. apply Hsum, H1.
      * simpl. destruct (String.eqb (field 0 ts) (code x)) eqn:E; [|reflexivity].
        apply String.eqb_eq in E. congruence.
    + change (code (folded i ts)) with (code i).
      replace (group (code i) [ts]) with [ts].
      * apply summary_snoc, Hsum, H1.
      * simpl. rewrite H2, String.eqb_refl. reflexivity.
    + change (code (created ts)) with (field 0 ts).
      rewrite group_none.
      * simpl. rewrite String.eqb_refl. reflexivity.
      * intros y Hy E. destruct (Hseen y Hy) as [Hm|Hf]; [|lia].
        rewrite E in Hm. congruence.
Qed.

Lemma place_all_settled tss : forall infos free seen,
  settled infos free seen ->
  settled (fst (place_all tss infos free)) (snd (place_all tss infos free))
          (seen ++ tss).
Proof.
  induction tss as [|ts tss IH]; intros infos free seen H.
  - simpl. rewrite app_nil_r. exact H.
  - cbn [place_all]. pose proof (place_settled ts infos free seen H) as H1.
    destruct (place ts infos free) as [i k]. cbn [fst snd] in H1.
    replace (seen ++ ts :: tss) with ((seen ++ [ts]) ++ tss)
      by (rewrite <- app_assoc; reflexivity).
    apply IH, H1.
Qed.

Lemma settled_fresh free : settled [] free [].
Proof. split; [constructor | split; intros ? []]. Qed.

(** The entries of a run from the empty table. *)
Lemma run_settled tss free :
  settled (fst (place_all tss [] free)) (snd (place_all tss [] free)) tss.
Proof. apply (place_all_settled tss [] free []), settled_fresh. Qed.

Lemma group_fields c lines :
  group c (map fields lines) = map fields (lines_of c lines).
Proof.
  unfold group, lines_of, region_code.
  induction lines as [|l lines IH]; [reflexivity|].
  simpl. destruct (String.eqb (field 0 (fields l)) c); simpl; rewrite IH;
    reflexivity.
Qed.

Lemma group_group c tss : group c (group c tss) = group c tss.
Proof.
  unfold group. induction tss as [|ts tss IH]; [reflexivity|].
  simpl. destruct (String.eqb (field 0 ts) c) eqn:E; [|exact IH].
  simpl. rewrite E, IH. reflexivity.
Qed.

Lemma group_codes c tss : forall x, In x (map (field 0) (group c tss)) -> x = c.
Proof.
  intros x Hx. apply in_map_iff in Hx as (ts & <- & Hts).
  apply filter_In in Hts as [_ E]. apply String.eqb_eq, E.
Qed.

Lemma first_seen_single c l :
  l <> [] -> (forall x, In x l -> x = c) -> first_seen l = [c].
Proof.
  induction l as [|x l IH]; intros Hne Hall; [congruence|].
  assert (Hx : x = c) by (apply Hall; left; reflexivity). subst x.
  simpl. f_equal. destruct l as [|y l]; [reflexivity|].
  rewrite IH; [|discriminate | intros z Hz; apply Hall; right; exact Hz].
  simpl. rewrite String.eqb_refl. reflexivity.
Qed.

(** The lines of one state alone build the entry of that state alone. *)
Lemma place_all_group c tss info k :
  summary (group c tss) = Some info ->
  place_all (group c tss) [] (S k) = ([info], k).
Proof.
  intros Hsum.
  pose proof (run_settled (group c tss) (S k)) as (Hnd & _ & Hall).
  pose proof (place_all_codes (group c tss) [] (S k) (NoDup_nil _)) as Hc.
  pose proof (place_all_length (group c tss) [] (S k)) as Hl.
  destruct (place_all (group c tss) [] (S k)) as [i j]. cbn [fst snd] in *.
  assert (Hne : group c tss <> []) by (destruct (group c tss); discriminate).
  rewrite (first_seen_single c) in Hc;
    [| destruct (group c tss); [congruence | discriminate]
     | apply group_codes ].
  simpl in Hc. rewrite firstn_nil in Hc.
  destruct i as [|x [|y i]]; try discriminate.
  inversion Hc as [Hx]. specialize (Hall x (or_introl eq_refl)).
  rewrite Hx, group_group, Hsum in Hall. inversion Hall; subst.
  simpl in Hl. f_equal. lia.
Qed.

End Groups.

(** ** Runs from the empty table with the memory they need *)

Section Fresh.

(** The entries of a run from the empty table are as many as the
    different codes of its lines, up to the size of the table. *)
Lemma fresh_entries lines :
  List.length (fst (place_all (map fields lines) [] NUM_STATES)) =
  List.length (firstn NUM_STATES (first_seen (map region_code lines))).
Proof.
  pose proof (place_all_codes (map fields lines) [] NUM_STATES (NoDup_nil _))
    as Hc.
  cbn [map app List.length Nat.add] in Hc. rewrite map_map in Hc.
  rewrite <- (length_map code), Hc. reflexivity.
Qed.

Lemma fresh_used lines :
  (NUM_STATES - snd (place_all (map fields lines) [] NUM_STATES))%nat =
  List.length (firstn NUM_STATES (first_seen (map region_code lines))).
Proof.
  pose proof (place_all_length (map fields lines) [] NUM_STATES) as Hl.
  pose proof (fresh_entries lines) as He.
  cbn [List.length Nat.add] in Hl. lia.
Qed.

(** A run over well-formed lines ends normally when [malloc] grants one
    entry for each code that gets a slot. *)
Lemma fresh_run lines heap :
  all_well_formed lines = true ->
  (List.length (firstn NUM_STATES (first_seen (map region_code lines)))
   <= heap)%nat ->
  analyze_lines lines (repeat None NUM_STATES) NUM_STATES heap =
  Done (table (fst (place_all (map fields lines) [] NUM_STATES))
              (snd (place_all (map fields lines) [] NUM_STATES)),
        (heap - List.length
                  (firstn NUM_STATES (first_seen (map region_code lines))))%nat).
Proof.
  intros Hwf Hheap.
  destruct (analyze_lines_heap lines [] NUM_STATES heap Hwf) as [_ Hdone].
  rewrite fresh_used in Hdone. apply Hdone, Hheap.
Qed.

Lemma main_loop_heap fopen args : forall infos free heap out,
  all_well_formed (all_lines fopen args) = true ->
  (free - snd (place_all (map fields (all_lines fopen args)) infos free)
   <= heap)%nat ->
  (List.length infos + free)%nat = NUM_STATES ->
  main_loop fopen args (table infos free) heap out =
  inr (table (fst (place_all (map fields (all_lines fopen args)) infos free))
             (snd (place_all (map fields (all_lines fopen args)) infos free)),
       out ++ map (file_message fopen) args).
Proof.
  induction args as [|path args IH]; intros infos free heap out Hwf Hheap Hn.
  - simpl. rewrite app_nil_r. reflexivity.
  - cbn [main_loop all_lines flat_map map] in *. unfold file_message at 1.
    destruct (fopen path) as [file|] eqn:Ef.
    + unfold all_well_formed in Hwf. rewrite forallb_app in Hwf.
      apply andb_true_iff in Hwf as [Hfile Hrest].
      rewrite map_app, place_all_app in Hheap |- *.
      set (lines := read_lines (String.length file) file) in *.
      destruct (analyze_lines_heap lines infos free heap Hfile) as [_ Hdone].
      pose proof (place_all_length (map fields lines) infos free) as Hlen.
      pose proof (place_all_free (map fields lines) infos free) as Hfree.
      rewrite analyze_file_lines, <- Hn. fold lines.
      destruct (place_all (map fields lines) infos free) as [i k].
      cbn [fst snd] in *.
      pose proof (place_all_free (map fields (all_lines fopen args)) i k)
        as Hfinal.
      unfold all_lines in *.
      rewrite Hdone by lia.
      rewrite IH by (assumption || lia).
      rewrite <- app_assoc. reflexivity.
    + rewrite IH by assumption.
      rewrite <- app_assoc. reflexivity.
Qed.

(** A run of [main] over well-formed lines, with the memory for its
    entries, returns 0; it prints the report of the entries [place_all]
    gives when there are any. *)
Lemma main_heap fopen heap prog args :
  args <> [] ->
  all_well_formed (all_lines fopen args) = true ->
  (List.length
     (firstn NUM_STATES (first_seen (map region_code (all_lines fopen args))))
   <= heap)%nat ->
  main fopen heap prog args =
  Terminated 0
    (map (file_message fopen) args ++
     match all_lines fopen args with
     | [] => []
     | _ => report_of
              (fst (place_all (map fields (all_lines fopen args)) [] NUM_STATES))
     end).
Proof.
  intros Hargs Hwf Hheap. unfold main.
  destruct args as [|a args]; [congruence|].
  change (repeat None NUM_STATES) with (table [] NUM_STATES).
  rewrite main_loop_heap;
    [|exact Hwf | rewrite fresh_used; exact Hheap | reflexivity].
  set (ls := all_lines fopen (a :: args)) in *.
  pose proof (place_all_length (map fields ls) [] NUM_STATES) as Hlen.
  destruct ls as [|l lines].
  - simpl. rewrite app_nil_r. reflexivity.
  - assert (Hne : fst (place_all (map fields (l :: lines)) [] NUM_STATES) <> []).
    { cbn [map place_all].
      pose proof (place_nonempty (fields l) [] NUM_STATES) as Hp.
      destruct (place (fields l) [] NUM_STATES) as [i k].
      apply place_all_nonempty, Hp. unfold NUM_STATES. simpl. lia. }
    destruct (place_all (map fields (l :: lines)) [] NUM_STATES) as [i k].
    cbn [fst snd] in *.
    destruct i as [|info i]; [congruence|].
    cbn [table map app]. unfold print_report.
    change (Some info :: map Some i ++ repeat None k) with (table (info :: i) k).
    simpl in Hlen. rewrite <- Hlen.
    change (S (List.length i + k)) with (List.length (info :: i) + k)%nat.
    rewrite entries_table. reflexivity.
Qed.

(** A message printed before the loop of [main] starts is printed before
    whatever the loop prints. *)
Lemma main_loop_out fopen args : forall states heap out,
  main_loop fopen args states heap out =
  match main_loop fopen args states heap [] with
  | inl (Terminated s o) => inl (Terminated s (out ++ o))
  | inl (Crashed f o) => inl (Crashed f (out ++ o))
  | inr (states', o) => inr (states', out ++ o)
  end.
Proof.
  induction args as [|path args IH]; intros states heap out.
  - simpl. rewrite app_nil_r. reflexivity.
  - cbn [main_loop]. destruct (fopen path) as [file|].
    + destruct (analyze_file file states NUM_STATES heap) as [[s h]|st o|f].
      * rewrite IH. rewrite (IH s h ([] ++ _)).
        destruct (main_loop fopen args s h []) as [[st o|f o]|[s' o]];
          rewrite <- !app_assoc; reflexivity.
      * rewrite <- !app_assoc. reflexivity.
      * reflexivity.
    + rewrite IH. rewrite (IH states heap ([] ++ _)).
      destruct (main_loop fopen args states heap []) as [[st o|f o]|[s' o]];
        rewrite <- !app_assoc; reflexivity.
Qed.

(** [atoi] reads back the decimal numeral of an [int]. *)
Lemma atoi_decimal z : - 2 ^ 31 <= z < 2 ^ 31 -> atoi (decimal z) = z.
Proof.
  intros Hz. unfold atoi.
  change (strtoll (decimal z)) with (atoll (decimal z)).
  rewrite atoll_decimal by (unfold LLONG_MIN, LLONG_MAX; lia).
  unfold to_int.
  rewrite Z.mod_small by lia. lia.
Qed.

(** Where the entries are after a line: an entry that was there is in
    its place, as it was or with the line added to it; an entry in a new
    place is the one the line created. *)
Lemma place_nth ts : forall infos free i info',
  nth_error (fst (place ts infos free)) i = Some info' ->
  match nth_error infos i with
  | Some info =>
      info' = info \/ (info' = folded info ts /\ code info = field 0 ts)
  | None =>
      info' = created ts /\ i = List.length infos
      /\ mem (field 0 ts) (map code infos) = false
  end.
Proof.
  induction infos as [|x infos IH]; intros free i info' H.
  - destruct free as [|k]; simpl in H.
    + destruct i; discriminate.
    + destruct i as [|i]; simpl in *.
      * inversion H; subst. repeat split.
      * destruct i; discriminate.
  - simpl in H.
    destruct (String.eqb (code x) (field 0 ts)) eqn:E.
    + destruct i as [|i]; simpl in *.
      * inversion H; subst. right. split; [reflexivity|].
        apply String.eqb_eq, E.
      * rewrite H. left. reflexivity.
    + specialize (IH free). destruct (place ts infos free) as [r k].
      destruct i as [|i]; simpl in *.
      * inversion H; subst. left. reflexivity.
      * specialize (IH i info' H).
        destruct (nth_error infos i) as [info|]; [exact IH|].
        destruct IH as (-> & -> & Hm). repeat split.
        unfold mem in *. simpl. rewrite String.eqb_sym, E. exact Hm.
Qed.

End Fresh.

(** ** Adding a line to an entry *)

(** C1. When the scan meets an entry whose code is the first field of the
    line (every slot before it holds another state), the line is folded
    into that entry and nothing else changes.  The number of records
    grows by one modulo 2^64, so by exactly one below the top of
    [unsigned long].  Humidity, cloud cover and converted temperature are
    added to the three sums by the IEEE addition of [long double].  What
    [atoi] reads in the snow and in the lightning field is added to the
    two counters modulo 2^64: the integer [z] when the field is its
    decimal numeral, so one when the flag is 1 and nothing when it is 0.
    The maximum and its time are replaced when the maximum is less than
    the new temperature and kept otherwise, the minimum and its time are
    replaced when the new temperature is less than the minimum and kept
    otherwise; a temperature equal to an extremum leaves it and its time
    as they were. *)
Theorem fold_into_entry
    (line c t1 t2 t3 t4 t5 t6 t7 t8 : string) (extra : list string)
    (pre post : list (option climate_info)) (info : climate_info)
    (n heap : nat) :
  fields line = c :: t1 :: t2 :: t3 :: t4 :: t5 :: t6 :: t7 :: t8 :: extra ->
  Forall (other c) pre -> code info = c -> (List.length pre < n)%nat ->
  let temperature :=
    SFconv flt_prec flt_emax
      (SFsub dbl_prec dbl_emax
         (SFmul dbl_prec dbl_emax (atof t8) (atof "1.8")) (atof "459.67")) in
  let timestamp := Z.quot (atoll t1) 1000 in
  exists info',
    analyze_line line (pre ++ Some info :: post) n heap =
      Done (pre ++ Some info' :: post, heap)
    /\ code info' = code info
    /\ num_records info' = (num_records info + 1) mod 2 ^ 64
    /\ (0 <= num_records info < 2 ^ 64 - 1 ->
        num_records info' = num_records info + 1)
    /\ sum_humidity info' =
         SFadd ldbl_prec ldbl_emax (sum_humidity info)
           (SFconv ldbl_prec ldbl_emax (atof t3))
    /\ sum_cloud_cover info' =
         SFadd ldbl_prec ldbl_emax (sum_cloud_cover info)
           (SFconv ldbl_prec ldbl_emax (atof t5))
    /\ sum_temperature info' =
         SFadd ldbl_prec ldbl_emax (sum_temperature info)
           (SFconv ldbl_prec ldbl_emax temperature)
    /\ snow_records info' = (snow_records info + atoi t4) mod 2 ^ 64
    /\ lightning_strikes info' = (lightning_strikes info + atoi t6) mod 2 ^ 64
    /\ (forall z, - 2 ^ 31 <= z < 2 ^ 31 -> t4 = decimal z ->
        snow_records info' = (snow_records info + z) mod 2 ^ 64)
    /\ (forall z, - 2 ^ 31 <= z < 2 ^ 31 -> t6 = decimal z ->
        lightning_strikes info' = (lightning_strikes info + z) mod 2 ^ 64)
    /\ (0 <= snow_records info < 2 ^ 64 - 1 ->
        (t4 = "1" -> snow_records info' = snow_records info + 1)
        /\ (t4 = "0" -> snow_records info' = snow_records info))
    /\ (0 <= lightning_strikes info < 2 ^ 64 - 1 ->
        (t6 = "1" -> lightning_strikes info' = lightning_strikes info + 1)
        /\ (t6 = "0" -> lightning_strikes info' = lightning_strikes info))
    /\ (SFltb (max_temperature info) temperature = true ->
        max_temperature info' = temperature /\ max_timestamp info' = timestamp)
    /\ (SFltb (max_temperature info) temperature = false ->
        max_temperature info' = max_temperature info
        /\ max_timestamp info' = max_timestamp info)
    /\ (SFltb temperature (min_temperature info) = true ->
        min_temperature info' = temperature /\ min_timestamp info' = timestamp)
    /\ (SFltb temperature (min_temperature info) = false ->
        min_temperature info' = min_temperature info
        /\ min_timestamp info' = min_timestamp info)
    /\ (SFeqb temperature (max_temperature info) = true ->
        max_temperature info' = max_temperature info
        /\ max_timestamp info' = max_timestamp info)
    /\ (SFeqb temperature (min_temperature info) = true ->
        min_temperature info' = min_temperature info
        /\ min_timestamp info' = min_timestamp info).
Proof.
  intros Hf Hpre Hc Hn temperature timestamp.
  exists (folded info (fields line)).
  split; [eapply analyze_line_hit; eassumption|].
  assert (Ht : temperature_of (fields line) = temperature).
  { rewrite Hf. reflexivity. }
  assert (Hs : timestamp_of (fields line) = timestamp).
  { rewrite Hf. reflexivity. }
  unfold folded. rewrite Ht, Hs. rewrite Hf. unfold field. cbn [nth].
  cbn [code num_records sum_humidity sum_cloud_cover sum_temperature
       snow_records lightning_strikes max_temperature min_temperature
       max_timestamp min_timestamp].
  unfold fgt, ldbl_add, to_ldbl, to_ulong.
  split; [reflexivity|]. split; [reflexivity|].
  split; [intros H; apply Z.mod_small; lia|].
  do 5 (split; [reflexivity|]).
  split; [intros z Hz ->; rewrite atoi_decimal by exact Hz; reflexivity|].
  split; [intros z Hz ->; rewrite atoi_decimal by exact Hz; reflexivity|].
  split.
  { intros H. split; intros ->.
    - change (atoi "1") with 1. apply Z.mod_small. lia.
    - change (atoi "0") with 0. rewrite Z.add_0_r. apply Z.mod_small. lia. }
  split.
  { intros H. split; intros ->.
    - change (atoi "1") with 1. apply Z.mod_small. lia.
    - change (atoi "0") with 0. rewrite Z.add_0_r. apply Z.mod_small. lia. }
  split; [intros ->; split; reflexivity|].
  split; [intros ->; split; reflexivity|].
  split; [intros ->; split; reflexivity|].
  split; [intros ->; split; reflexivity|].
  split; intros H.
  - apply SFeqb_not_fgt in H as [H _]. unfold fgt in H. rewrite H.
    split; reflexivity.
  - apply SFeqb_not_fgt in H as [_ H]. unfold fgt in H. rewrite H.
    split; reflexivity.
Qed.

Lemma fold_into_entry_witness :
  fields tn_second =
    ["TN"; "1420003600000"; "dn6m9tq7yc80"; "48"; "1"; "60"; "0"; "95644.0";
     "293.15"]
  /\ exists info',
       analyze_line tn_second (Some tn_entry :: repeat None 49) NUM_STATES 49 =
         Done (Some info' :: repeat None 49, 49%nat)
       /\ num_records info' = 2
       /\ SF2Q (sum_humidity info') = Some (98 # 1)
       /\ SF2Q (sum_cloud_cover info') = Some (100 # 1)
       /\ snow_records info' = 1
       /\ lightning_strikes info' = 1
       /\ SFltb (max_temperature tn_entry) (max_temperature info') = true
       /\ max_timestamp info' = 1420003600
       /\ min_temperature info' = min_temperature tn_entry
       /\ min_timestamp info' = 1420000000.
Proof.
  split; [reflexivity|].
  destruct (fold_into_entry tn_second "TN" "1420003600000" "dn6m9tq7yc80" "48"
              "1" "60" "0" "95644.0" "293.15" [] [] (repeat None 49) tn_entry
              NUM_STATES 49)
    as (info' & Hrun & _ & Hn & _ & Hh & Hcl & _ & Hsn & Hli & _ & _ & _ & _
        & Hmax & _ & _ & Hmin & _).
  - reflexivity.
  - constructor.
  - reflexivity.
  - simpl. unfold NUM_STATES. lia.
  - exists info'. split; [exact Hrun|].
    destruct Hmax as [Hmt Hmts]; [vm_compute; reflexivity|].
    destruct Hmin as [Hnt Hnts]; [vm_compute; reflexivity|].
    rewrite Hn, Hh, Hcl, Hsn, Hli, Hmt, Hmts, Hnt, Hnts.
    repeat split; vm_compute; reflexivity.
Defined.

(** ** A line of a state not seen before *)

(** C2, as the program has it.  When no entry has the code of the line,
    the table still has a free slot and [malloc] grants an entry, the line
    creates the entry in the first free slot: one record, each sum equal
    to the value of its field, maximum and minimum both the converted
    temperature, both times the time of the line, the two counters the
    value of the snow and of the lightning field. *)
Theorem create_entry_in_free_slot
    (line c t1 t2 t3 t4 t5 t6 t7 t8 : string) (extra : list string)
    (infos : list climate_info) (free n heap : nat) :
  fields line = c :: t1 :: t2 :: t3 :: t4 :: t5 :: t6 :: t7 :: t8 :: extra ->
  (String.length c <= 2)%nat ->
  mem c (map code infos) = false ->
  (List.length infos < n)%nat ->
  let temperature := fahrenheit (atof t8) in
  let timestamp := Z.quot (atoll t1) 1000 in
  exists e,
    analyze_line line (table infos (S free)) n (S heap) =
      Done (table (infos ++ [e]) free, heap)
    /\ code e = c
    /\ num_records e = 1
    /\ sum_humidity e = to_ldbl (atof t3)
    /\ sum_cloud_cover e = to_ldbl (atof t5)
    /\ sum_temperature e = to_ldbl temperature
    /\ snow_records e = to_ulong (atoi t4)
    /\ lightning_strikes e = to_ulong (atoi t6)
    /\ max_temperature e = temperature
    /\ min_temperature e = temperature
    /\ max_timestamp e = timestamp
    /\ min_timestamp e = timestamp.
Proof.
  intros Hf Hc Hmem Hn temperature timestamp.
  exists (created (fields line)). split.
  - unfold table. rewrite map_app, <- app_assoc. cbn [repeat map app].
    eapply analyze_line_new; try eassumption.
    + apply others_of_entries, Hmem.
    + rewrite length_map. exact Hn.
  - rewrite Hf. repeat split.
Qed.

Lemma create_entry_in_free_slot_witness :
  exists e,
    analyze_line tn_first (table [] NUM_STATES) NUM_STATES 1 =
      Done (table [e] 49, 0%nat)
    /\ code e = "TN" /\ num_records e = 1.
Proof.
  destruct (create_entry_in_free_slot tn_first "TN" "1420000000000"
              "dn6m9tq7yc80" "50" "0" "40" "1" "95644.0" "283.15" [] [] 49
              NUM_STATES 0)
    as (e & Hrun & Hcode & Hn & _).
  - reflexivity.
  - simpl. lia.
  - reflexivity.
  - unfold NUM_STATES. simpl. lia.
  - exists e. split; [exact Hrun | split; [exact Hcode | exact Hn]].
Defined.

(** C2 as it is worded fails on a full table: after one record of each of
    50 states, a record of a 51st state, which has no entry, creates none
    and leaves the table as it was, with memory still to be had. *)
Lemma create_entry_counterexample :
  analyze_lines (state_lines 50) (repeat None NUM_STATES) NUM_STATES 51 =
    Done (map Some full_infos, 1%nat)
  /\ well_formed (state_line 50) = true
  /\ mem (region_code (state_line 50)) (map code full_infos) = false
  /\ analyze_line (state_line 50) (map Some full_infos) NUM_STATES 1 =
       Done (map Some full_infos, 1%nat).
Proof. repeat split; vm_compute; reflexivity. Qed.

(** ** A line of a new state when the table is full *)

(** C10. When the 50 slots hold entries and none has the code of the line,
    [analyze_line] returns the table and the allocator as they were:
    nothing is created or updated, nothing is printed (output only comes
    with [Exit]) and the loop goes on to the next line. *)
Theorem full_table_drops_line
    (line c : string) (infos : list climate_info) (heap : nat) :
  hd_error (fields line) = Some c ->
  List.length infos = NUM_STATES ->
  mem c (map code infos) = false ->
  analyze_line line (map Some infos) NUM_STATES heap = Done (map Some infos, heap).
Proof.
  intros Hc Hlen Hmem.
  rewrite <- Hlen, <- (length_map Some infos).
  apply analyze_line_full with (c := c); [exact Hc|].
  apply others_of_entries, Hmem.
Qed.

Lemma full_table_drops_line_witness :
  analyze_line (state_line 50) (map Some full_infos) NUM_STATES 7 =
    Done (map Some full_infos, 7%nat).
Proof.
  apply (full_table_drops_line (state_line 50) (code_of 50) full_infos 7).
  - vm_compute. reflexivity.
  - vm_compute. reflexivity.
  - vm_compute. reflexivity.
Defined.

(** ** The order of the report *)

(** C3. A run of [main] over well-formed lines (at least one), with the
    memory for its entries, returns 0 and prints, after the messages
    about its files: the line [States found:] with the codes of the
    entries [es], one [printf] each and in the order of [es]; then the
    eleven lines of each entry, block after block in the same order.  The
    codes of [es] are the codes of all the lines of all the files, each
    at the place of its first occurrence, cut at the 50 slots of the
    table; with at most 50 different codes they are exactly the codes in
    the order of first occurrence. *)
Theorem discovery_order
    (fopen : string -> option string) (heap : nat) (prog : string)
    (args : list string) :
  (0 < List.length (all_lines fopen args))%nat ->
  all_well_formed (all_lines fopen args) = true ->
  (List.length
     (firstn NUM_STATES (first_seen (map region_code (all_lines fopen args))))
   <= heap)%nat ->
  exists es,
    main fopen heap prog args =
      Terminated 0
        (map (fun path =>
                match fopen path with
                | Some _ => Printf "Opening file: %s\n" [AStr path]
                | None => Printf "ERROR: %s does not exist\n" [AStr path]
                end) args
         ++ Printf "States found: " []
         :: map (fun info => Printf "%s " [AStr (code info)]) es
         ++ Printf "\n" []
         :: flat_map
              (fun info =>
              [Printf "-- State: %s --\n" [AStr (code info)];
               Printf "Number of Records: %ld\n"
                 [ALong (to_long (num_records info))];
               Printf "Average Humidity: %0.1f%%\n"
                 [ADouble (ldbl_avg (sum_humidity info) (num_records info))];
               Printf "Average Temperature: %0.1fF\n"
                 [ADouble (ldbl_avg (sum_temperature info) (num_records info))];
               Printf "Max Temperature: %0.1fF\n"
                 [ADouble (SFconv dbl_prec dbl_emax (max_temperature info))];
               Printf "Max Temperature on: %s" [ACtime (max_timestamp info)];
               Printf "Min Temperature: %0.1fF\n"
                 [ADouble (SFconv dbl_prec dbl_emax (min_temperature info))];
               Printf "Min Temperature on: %s" [ACtime (min_timestamp info)];
               Printf "Lightning Strikes: %ld\n"
                 [ALong (to_long (lightning_strikes info))];
               Printf "Records with Snow Cover: %ld\n"
                 [ALong (to_long (snow_records info))];
               Printf "Average Cloud Cover: %0.1f%%\n"
                 [ADouble (ldbl_avg (sum_cloud_cover info) (num_records info))]])
              es)
    /\ map code es =
         firstn NUM_STATES (first_seen (map region_code (all_lines fopen args)))
    /\ ((List.length (first_seen (map region_code (all_lines fopen args)))
         <= NUM_STATES)%nat ->
        map code es = first_seen (map region_code (all_lines fopen args))).
Proof.
  intros Hlines Hwf Hheap.
  assert (Hargs : args <> []).
  { intros ->. simpl in Hlines. lia. }
  exists (fst (place_all (map fields (all_lines fopen args)) [] NUM_STATES)).
  assert (Hcodes :
    map code (fst (place_all (map fields (all_lines fopen args)) [] NUM_STATES)) =
    firstn NUM_STATES (first_seen (map region_code (all_lines fopen args)))).
  { rewrite place_all_codes by constructor.
    rewrite map_map. reflexivity. }
  split; [|split].
  - rewrite main_heap by assumption.
    destruct (all_lines fopen args); [simpl in Hlines; lia | reflexivity].
  - exact Hcodes.
  - intros Hle. rewrite Hcodes. apply firstn_all2. exact Hle.
Qed.

Lemma discovery_order_witness :
  map region_code (all_lines two_files ["one.tdv"; "two.tdv"]) = ["A"; "B"; "A"; "C"]
  /\ exists es out blocks,
       main two_files 3 "climate" ["one.tdv"; "two.tdv"] = Terminated 0 out
       /\ map code es = ["A"; "B"; "C"]
       /\ out =
            [Printf "Opening file: %s\n" [AStr "one.tdv"];
             Printf "Opening file: %s\n" [AStr "two.tdv"];
             Printf "States found: " [];
             Printf "%s " [AStr "A"]; Printf "%s " [AStr "B"];
             Printf "%s " [AStr "C"]; Printf "\n" []] ++ blocks
       /\ nth_error blocks 0 = Some (Printf "-- State: %s --\n" [AStr "A"])
       /\ nth_error blocks 11 = Some (Printf "-- State: %s --\n" [AStr "B"])
       /\ nth_error blocks 22 = Some (Printf "-- State: %s --\n" [AStr "C"]).
Proof.
  split; [vm_compute; reflexivity|].
  destruct (discovery_order two_files 3 "climate" ["one.tdv"; "two.tdv"])
    as (es & Hmain & Hcodes & _).
  - vm_compute. lia.
  - vm_compute. reflexivity.
  - vm_compute. lia.
  - assert (Hc : map code es = ["A"; "B"; "C"]).
    { rewrite Hcodes. vm_compute. reflexivity. }
    destruct es as [|a [|b [|c [|d es]]]]; try discriminate Hc.
    injection Hc as Ha Hb Hc.
    exists [a; b; c]. eexists. eexists. split; [exact Hmain|].
    split; [cbn [map]; rewrite Ha, Hb, Hc; reflexivity|].
    cbn [map app flat_map two_files String.eqb Ascii.eqb Bool.eqb].
    rewrite Ha, Hb, Hc.
    split; [reflexivity|]. repeat split.
Defined.

(** ** The run as a whole *)

(** C8, as the program has it.  Without a file argument [main] prints the
    usage line and returns [EXIT_FAILURE], whatever else holds.  A path
    that does not open is answered, at any point of the loop over the
    arguments and whatever was read before, by the error message that
    names it, and the loop goes on with the next argument in the same
    state; as the first of several arguments it adds its message in
    front of what the run without it does.  With arguments, when every
    line read is well-formed and [malloc] grants the entries the run
    itself needs, [main] returns 0 after printing one message per
    argument, in order, and then the report, which is there exactly when
    at least one line was read: nothing when no line was read, the line
    [States found:] with at least one code and the blocks of the entries
    otherwise. *)
Theorem main_outcome
    (fopen : string -> option string) (heap : nat) (prog : string)
    (args : list string) :
  (args = [] ->
   main fopen heap prog args =
     Terminated EXIT_FAILURE
       [Printf "Usage: %s tdv_file1 tdv_file2 ... tdv_fileN \n" [AStr prog]])
  /\ (forall path rest states h out,
        fopen path = None ->
        main_loop fopen (path :: rest) states h out =
        main_loop fopen rest states h
          (out ++ [Printf "ERROR: %s does not exist\n" [AStr path]]))
  /\ (forall path,
        fopen path = None -> args <> [] ->
        main fopen heap prog (path :: args) =
        match main fopen heap prog args with
        | Terminated status out =>
            Terminated status
              (Printf "ERROR: %s does not exist\n" [AStr path] :: out)
        | Crashed f out =>
            Crashed f (Printf "ERROR: %s does not exist\n" [AStr path] :: out)
        end)
  /\ (args <> [] ->
      all_well_formed (all_lines fopen args) = true ->
      (List.length
         (firstn NUM_STATES
            (first_seen (map region_code (all_lines fopen args))))
       <= heap)%nat ->
      exists report,
        main fopen heap prog args =
          Terminated 0
            (map (fun path =>
                    match fopen path with
                    | Some _ => Printf "Opening file: %s\n" [AStr path]
                    | None => Printf "ERROR: %s does not exist\n" [AStr path]
                    end) args
             ++ report)
        /\ (all_lines fopen args = [] -> report = [])
        /\ (all_lines fopen args <> [] ->
            exists info es,
              report =
                Printf "States found: " []
                :: map (fun info => Printf "%s " [AStr (code info)])
                     (info :: es)
                ++ Printf "\n" []
                :: flat_map
                     (fun info =>
              [Printf "-- State: %s --\n" [AStr (code info)];
               Printf "Number of Records: %ld\n"
                 [ALong (to_long (num_records info))];
               Printf "Average Humidity: %0.1f%%\n"
                 [ADouble (ldbl_avg (sum_humidity info) (num_records info))];
               Printf "Average Temperature: %0.1fF\n"
                 [ADouble (ldbl_avg (sum_temperature info) (num_records info))];
               Printf "Max Temperature: %0.1fF\n"
                 [ADouble (SFconv dbl_prec dbl_emax (max_temperature info))];
               Printf "Max Temperature on: %s" [ACtime (max_timestamp info)];
               Printf "Min Temperature: %0.1fF\n"
                 [ADouble (SFconv dbl_prec dbl_emax (min_temperature info))];
               Printf "Min Temperature on: %s" [ACtime (min_timestamp info)];
               Printf "Lightning Strikes: %ld\n"
                 [ALong (to_long (lightning_strikes info))];
               Printf "Records with Snow Cover: %ld\n"
                 [ALong (to_long (snow_records info))];
               Printf "Average Cloud Cover: %0.1f%%\n"
                 [ADouble (ldbl_avg (sum_cloud_cover info) (num_records info))]])
                     (info :: es))).
Proof.
  split; [|split; [|split]].
  - intros ->. reflexivity.
  - intros path rest states h out Hp. cbn [main_loop]. rewrite Hp. reflexivity.
  - intros path Hp Hargs. unfold main.
    destruct args as [|a args']; [congruence|].
    set (rest := a :: args') in *.
    change (main_loop fopen (path :: rest) (repeat None NUM_STATES) heap [])
      with (match fopen path with
            | None =>
                main_loop fopen rest (repeat None NUM_STATES) heap
                  ([] ++ [Printf "ERROR: %s does not exist\n" [AStr path]])
            | Some file =>
                match analyze_file file (repeat None NUM_STATES) NUM_STATES heap
                with
                | Done (states', heap') =>
                    main_loop fopen rest states' heap'
                      ([] ++ [Printf "Opening file: %s\n" [AStr path]])
                | Exit s o =>
                    inl (Terminated s
                           (([] ++ [Printf "Opening file: %s\n" [AStr path]])
                            ++ o))
                | Undef f =>
                    inl (Crashed f
                           ([] ++ [Printf "Opening file: %s\n" [AStr path]]))
                end
            end).
    rewrite Hp, main_loop_out.
    destruct (main_loop fopen rest (repeat None NUM_STATES) heap [])
      as [[st o|f o]|[s' o]]; try reflexivity.
    destruct s' as [|[i|] s'']; try reflexivity.
    destruct (print_report (Some i :: s'') NUM_STATES); reflexivity.
  - intros Hargs Hwf Hheap. rewrite main_heap by assumption.
    eexists. split; [reflexivity|]. split.
    + intros ->. reflexivity.
    + intros Hne. destruct (all_lines fopen args) as [|l ls] eqn:El;
        [congruence|].
      pose proof (place_nonempty (fields l) [] NUM_STATES) as Hp.
      cbn [map place_all].
      destruct (place (fields l) [] NUM_STATES) as [i k].
      assert (Hi : fst (place_all (map fields ls) i k) <> []).
      { apply place_all_nonempty, Hp. unfold NUM_STATES. simpl. lia. }
      destruct (fst (place_all (map fields ls) i k)) as [|info es];
        [congruence|].
      exists info, es. reflexivity.
Qed.

Lemma main_outcome_witness :
  main two_files 1 "climate" [] =
    Terminated EXIT_FAILURE
      [Printf "Usage: %s tdv_file1 tdv_file2 ... tdv_fileN \n" [AStr "climate"]]
  /\ main two_files 2 "climate" ["none.tdv"; "one.tdv"] =
       match main two_files 2 "climate" ["one.tdv"] with
       | Terminated status out =>
           Terminated status
             (Printf "ERROR: %s does not exist\n" [AStr "none.tdv"] :: out)
       | Crashed f out =>
           Crashed f (Printf "ERROR: %s does not exist\n" [AStr "none.tdv"] :: out)
       end
  /\ exists report,
       main two_files 2 "climate" ["none.tdv"; "one.tdv"] =
         Terminated 0
           ([Printf "ERROR: %s does not exist\n" [AStr "none.tdv"];
             Printf "Opening file: %s\n" [AStr "one.tdv"]] ++ report)
       /\ nth_error report 0 = Some (Printf "States found: " []).
Proof.
  split; [|split].
  - apply (main_outcome two_files 1 "climate" []). reflexivity.
  - destruct (main_outcome two_files 2 "climate" ["one.tdv"])
      as (_ & _ & H & _).
    apply (H "none.tdv"); [reflexivity | discriminate].
  - destruct (main_outcome two_files 2 "climate" ["none.tdv"; "one.tdv"])
      as (_ & _ & _ & H).
    destruct H as (report & Hmain & _ & Hrep).
    + discriminate.
    + vm_compute. reflexivity.
    + vm_compute. lia.
    + exists report. split; [exact Hmain|].
      destruct Hrep as (info & es & ->); [vm_compute; discriminate|].
      reflexivity.
Defined.

(** C8 as it is worded fails on two runs that get past the check of the
    arguments: when [malloc] returns a null pointer the program prints an
    error and exits with [EXIT_FAILURE]; on a line that has no second
    field a null pointer reaches [atoll] and what the run does from there
    is undefined. *)
Lemma main_outcome_counterexample :
  main tn_file 0 "climate" ["tn.tdv"] =
    Terminated EXIT_FAILURE
      [Printf "Opening file: %s\n" [AStr "tn.tdv"];
       Printf "ERROR: Memory could not be allocated\n" []]
  /\ main short_file 50 "climate" ["tn.tdv"] =
       Crashed NullPointer [Printf "Opening file: %s\n" [AStr "tn.tdv"]].
Proof. split; vm_compute; reflexivity. Qed.

(** ** Minimum and maximum *)

Section Extrema.

Lemma created_ordered ts :
  temperature_of ts <> S754_nan -> ordered (created ts) = true.
Proof. intros H. unfold ordered. simpl. apply SFleb_refl, H. Qed.

Lemma folded_ordered info ts :
  ordered info = true -> ordered (folded info ts) = true.
Proof.
  unfold ordered, folded, fgt. cbn [min_temperature max_temperature].
  set (t := temperature_of ts). intros H.
  destruct (SFltb (max_temperature info) t) eqn:Hhi,
           (SFltb t (min_temperature info)) eqn:Hlo.
  - apply SFleb_refl. apply SFltb_not_nan in Hlo. tauto.
  - apply SFleb_trans with (b := max_temperature info);
      [exact H | apply SFltb_leb, Hhi].
  - apply SFleb_trans with (b := min_temperature info);
      [apply SFltb_leb, Hlo | exact H].
  - exact H.
Qed.

Lemma numeric_not_nan line :
  numeric line = true -> temperature_of (fields line) <> S754_nan.
Proof. unfold numeric. intros H E. rewrite E in H. discriminate. Qed.

(** Adding lines to an entry keeps its minimum at or below its maximum. *)
Lemma fold_folded_ordered rest : forall info,
  ordered info = true -> ordered (fold_left folded rest info) = true.
Proof.
  induction rest as [|ts rest IH]; intros info H; [exact H|].
  simpl. apply IH, folded_ordered, H.
Qed.

End Extrema.

(** C4, as the program has it.  In a run over well-formed lines from the
    empty table of [main], with the memory for its entries, every entry
    whose first line, the one that created it, carries a temperature that
    is a number has its minimum at or below its maximum, whatever the
    lines that followed.  And every ingest preserves this: after one
    well-formed line read into any table (a new entry, if the line needs
    one, being granted by [malloc]), an entry that had its minimum at or
    below its maximum still has, and the entry the line created, if it
    created one, has when the temperature of the line is a number. *)
Theorem extrema_stay_ordered
    (lines : list string) (heap : nat)
    (line : string) (infos : list climate_info) (free heap1 : nat) :
  all_well_formed lines = true ->
  (List.length (firstn NUM_STATES (first_seen (map region_code lines)))
   <= heap)%nat ->
  well_formed line = true ->
  (mem (region_code line) (map code infos) = false ->
   (0 < free)%nat -> (0 < heap1)%nat) ->
  (exists infos' free' heap',
     analyze_lines lines (repeat None NUM_STATES) NUM_STATES heap =
       Done (table infos' free', heap')
     /\ forall info l,
          In info infos' ->
          hd_error (lines_of (code info) lines) = Some l ->
          numeric l = true ->
          1 <= num_records info ->
          SFleb (min_temperature info) (max_temperature info) = true)
  /\ (exists infos' free' heap',
        analyze_line line (table infos free) (List.length infos + free) heap1 =
          Done (table infos' free', heap')
        /\ forall i info',
             nth_error infos' i = Some info' ->
             match nth_error infos i with
             | Some info =>
                 SFleb (min_temperature info) (max_temperature info) = true ->
                 SFleb (min_temperature info') (max_temperature info') = true
             | None =>
                 numeric line = true ->
                 SFleb (min_temperature info') (max_temperature info') = true
             end).
Proof.
  intros Hwf Hheap Hline Hmem. split.
  - eexists _, _, _. split; [apply fresh_run; assumption|].
    intros info l Hin Hl Hnum _.
    pose proof (run_settled (map fields lines) NUM_STATES) as (_ & _ & Hsum).
    specialize (Hsum info Hin). rewrite group_fields in Hsum.
    destruct (lines_of (code info) lines) as [|l0 rest]; [discriminate|].
    simpl in Hl. inversion Hl; subst l0. simpl in Hsum.
    inversion Hsum as [Hinfo].
    change (ordered (fold_left folded (map fields rest) (created (fields l)))
            = true).
    apply fold_folded_ordered, created_ordered, numeric_not_nan, Hnum.
  - eexists _, _, _. split.
    + apply analyze_line_heap; [exact Hline|].
      intros ->. destruct (mem (region_code line) (map code infos)) eqn:Em;
        [left; reflexivity|].
      right. destruct free as [|k]; [reflexivity|].
      specialize (Hmem eq_refl). lia.
    + intros i info' Hi. apply place_nth in Hi.
      destruct (nth_error infos i) as [info|].
      * intros Hord. destruct Hi as [->|[-> _]]; [exact Hord|].
        apply (folded_ordered info (fields line)), Hord.
      * intros Hnum. destruct Hi as (-> & _).
        apply (created_ordered (fields line)), numeric_not_nan, Hnum.
Qed.

Lemma extrema_stay_ordered_witness :
  (exists infos' free' heap',
     analyze_lines [tn_first; tn_second] (repeat None NUM_STATES) NUM_STATES 1 =
       Done (table infos' free', heap')
     /\ forall info l,
          In info infos' ->
          hd_error (lines_of (code info) [tn_first; tn_second]) = Some l ->
          numeric l = true ->
          1 <= num_records info ->
          SFleb (min_temperature info) (max_temperature info) = true)
  /\ (exists infos' free' heap',
        analyze_line tn_second (table [tn_entry] 49)
          (List.length [tn_entry] + 49) 0 =
          Done (table infos' free', heap')
        /\ forall i info',
             nth_error infos' i = Some info' ->
             match nth_error [tn_entry] i with
             | Some info =>
                 SFleb (min_temperature info) (max_temperature info) = true ->
                 SFleb (min_temperature info') (max_temperature info') = true
             | None =>
                 numeric tn_second = true ->
                 SFleb (min_temperature info') (max_temperature info') = true
             end).
Proof.
  apply (extrema_stay_ordered [tn_first; tn_second] 1 tn_second [tn_entry] 49 0).
  - vm_compute. reflexivity.
  - vm_compute. lia.
  - vm_compute. reflexivity.
  - vm_compute. discriminate.
Defined.

(** C4 as it is worded fails on a record whose temperature field is the
    text nan: the line is well-formed, [atof] returns a NaN, the entry
    it creates holds the NaN as maximum and as minimum, and no later
    temperature replaces either, as every comparison with a NaN is
    false.  After this line and an ordinary one the entry has two
    records and its maximum is not greater than or equal to its
    minimum. *)
Lemma extrema_stay_ordered_counterexample :
  all_well_formed [tn_nan; tn_first] = true
  /\ atof "nan" = S754_nan
  /\ exists e,
       analyze_lines [tn_nan; tn_first] (repeat None NUM_STATES) NUM_STATES 50 =
         Done (Some e :: repeat None 49, 49%nat)
       /\ num_records e = 2
       /\ max_temperature e = S754_nan
       /\ min_temperature e = S754_nan
       /\ SFleb (min_temperature e) (max_temperature e) = false.
Proof.
  split; [vm_compute; reflexivity|]. split; [vm_compute; reflexivity|].
  exists (folded (created (fields tn_nan)) (fields tn_first)).
  repeat split; vm_compute; reflexivity.
Qed.

(** ** Record counts *)

Section Counts.

Lemma to_ulong_small z : 0 <= z < 2 ^ 64 -> to_ulong z = z.
Proof. intros H. unfold to_ulong. apply Z.mod_small. exact H. Qed.

Lemma count_code_cons c ts tss :
  count_code c (ts :: tss) =
  (if String.eqb (field 0 ts) c then 1 else 0) + count_code c tss.
Proof.
  unfold count_code. simpl.
  destruct (String.eqb (field 0 ts) c); simpl List.length; lia.
Qed.

Lemma records_of_in_range more c infos :
  0 <= more < 2 ^ 64 -> Forall (in_range more) infos ->
  0 <= records_of c infos /\ records_of c infos + more < 2 ^ 64.
Proof.
  intros Hm Hall. unfold records_of.
  destruct (find (fun info => String.eqb (code info) c) infos) as [info|] eqn:E.
  - apply find_some in E as [Hin _].
    rewrite Forall_forall in Hall. apply (Hall info Hin).
  - lia.
Qed.

Lemma records_of_In infos :
  NoDup (map code infos) -> forall info, In info infos ->
  records_of (code info) infos = num_records info.
Proof.
  unfold records_of.
  induction infos as [|i infos IH]; intros Hnd info Hin; [destruct Hin|].
  simpl in Hnd. inversion Hnd as [|? ? Hni Hnd']; subst.
  simpl. destruct Hin as [->|Hin].
  - rewrite String.eqb_refl. reflexivity.
  - destruct (String.eqb (code i) (code info)) eqn:E.
    + apply String.eqb_eq in E. exfalso. apply Hni. rewrite E.
      apply in_map, Hin.
    + apply IH; assumption.
Qed.

(** The count filed under [c] after one line. *)
Lemma place_records ts c : forall infos free,
  records_of c (fst (place ts infos free)) =
  if String.eqb (field 0 ts) c then
    if mem c (map code infos) then to_ulong (records_of c infos + 1)
    else match free with O => 0 | S _ => 1 end
  else records_of c infos.
Proof.
  unfold records_of, mem.
  induction infos as [|info infos IH]; intros free.
  - destruct free; simpl; [destruct (String.eqb (field 0 ts) c); reflexivity|].
    destruct (String.eqb (field 0 ts) c); reflexivity.
  - simpl. rewrite (String.eqb_sym c (code info)).
    destruct (String.eqb (code info) (field 0 ts)) eqn:E1.
    + apply String.eqb_eq in E1. simpl. rewrite <- E1.
      destruct (String.eqb (code info) c); reflexivity.
    + specialize (IH free). destruct (place ts infos free) as [r k].
      simpl in *. destruct (String.eqb (code info) c) eqn:E2.
      * apply String.eqb_eq in E2. subst c. rewrite String.eqb_sym, E1.
        reflexivity.
      * simpl. exact IH.
Qed.

Lemma place_in_range ts more : forall infos free,
  0 <= more -> 1 + more < 2 ^ 64 ->
  Forall (in_range (1 + more)) infos ->
  Forall (in_range more) (fst (place ts infos free)).
Proof.
  induction infos as [|info infos IH]; intros free Hm Hm1 Hall.
  - destruct free; cbn [place fst]; constructor; [|constructor].
    unfold in_range. cbn [created num_records]. lia.
  - inversion Hall as [|? ? Hi Hall']; subst. cbn [place].
    destruct (String.eqb (code info) (field 0 ts)).
    + cbn [fst]. constructor.
      * unfold in_range in *. cbn [folded num_records].
        rewrite to_ulong_small by lia. lia.
      * eapply Forall_impl; [|exact Hall']. unfold in_range. intros; lia.
    + specialize (IH free Hm Hm1 Hall').
      destruct (place ts infos free) as [r k]. cbn [fst] in *.
      constructor; [unfold in_range in *; lia | exact IH].
Qed.

Lemma place_all_full_codes tss infos :
  NoDup (map code infos) ->
  map code (fst (place_all tss infos 0)) = map code infos.
Proof.
  intros Hnd. rewrite place_all_codes by assumption.
  rewrite Nat.add_0_r, <- (length_map code infos).
  apply first_seen_full. exact Hnd.
Qed.

(** The count filed under a code of the final table: what was filed before
    and one for each line of that code. *)
Lemma place_all_records c tss : forall infos free,
  Z.of_nat (List.length tss) < 2 ^ 64 ->
  Forall (in_range (Z.of_nat (List.length tss))) infos ->
  NoDup (map code infos) ->
  mem c (map code (fst (place_all tss infos free))) = true ->
  records_of c (fst (place_all tss infos free)) =
  records_of c infos + count_code c tss.
Proof.
  induction tss as [|ts tss IH]; intros infos free Hlen Hall Hnd Hin.
  - simpl. unfold count_code. simpl. lia.
  - cbn [place_all] in *. rewrite count_code_cons.
    replace (Z.of_nat (List.length (ts :: tss)))
      with (1 + Z.of_nat (List.length tss)) in * by (simpl List.length; lia).
    pose proof (place_records ts c infos free) as Hr.
    pose proof (place_in_range ts (Z.of_nat (List.length tss)) infos free
                  ltac:(lia) Hlen Hall) as Hb.
    pose proof (place_NoDup ts infos free Hnd) as Hn.
    pose proof (place_codes ts infos free) as Hc.
    pose proof (records_of_in_range (1 + Z.of_nat (List.length tss)) c infos
                  ltac:(lia) Hall) as Hrange.
    destruct (place ts infos free) as [i k] eqn:Ep. cbn [fst snd] in *.
    rewrite (IH i k) by (assumption || lia). rewrite Hr.
    destruct (String.eqb (field 0 ts) c) eqn:E; [|lia].
    apply String.eqb_eq in E. rewrite E in *.
    destruct (mem c (map code infos)) eqn:Em.
    + rewrite to_ulong_small by lia. lia.
    + destruct free as [|free'].
      * exfalso. assert (Ek : k = 0%nat).
        { pose proof (place_free ts infos 0) as Hk. rewrite Ep in Hk.
          simpl in Hk. lia. }
        subst k. rewrite place_all_full_codes in Hin by assumption.
        rewrite Hc in Hin. congruence.
      * unfold records_of in *.
        destruct (find (fun info => String.eqb (code info) c) infos) as [x|] eqn:Ef;
          [|lia].
        apply find_some in Ef as [Hx Ex]. apply String.eqb_eq in Ex.
        apply mem_false in Em. exfalso. apply Em. rewrite <- Ex.
        apply in_map, Hx.
Qed.

(** A line that is filed adds one to the total. *)
Lemma place_total ts : forall infos free,
  Forall (in_range 1) infos ->
  mem (field 0 ts) (map code infos) = true \/ (0 < free)%nat ->
  total_records (fst (place ts infos free)) = total_records infos + 1.
Proof.
  induction infos as [|info infos IH]; intros free Hall Hroom.
  - destruct Hroom as [H|H]; [discriminate|].
    destruct free; [lia | reflexivity].
  - inversion Hall as [|? ? Hi Hall']; subst. simpl.
    unfold mem in Hroom. simpl in Hroom.
    rewrite (String.eqb_sym (field 0 ts)) in Hroom.
    destruct (String.eqb (code info) (field 0 ts)).
    + simpl. unfold in_range in Hi. rewrite to_ulong_small by lia. lia.
    + simpl in Hroom. specialize (IH free Hall' Hroom).
      destruct (place ts infos free) as [r k]. simpl in *. lia.
Qed.

(** With room for every code, every line is filed. *)
Lemma place_all_total tss : forall infos free,
  Z.of_nat (List.length tss) < 2 ^ 64 ->
  Forall (in_range (Z.of_nat (List.length tss))) infos ->
  NoDup (map code infos) ->
  (List.length (first_seen (map code infos ++ map (field 0) tss))
   <= List.length infos + free)%nat ->
  total_records (fst (place_all tss infos free)) =
  total_records infos + Z.of_nat (List.length tss).
Proof.
  induction tss as [|ts tss IH]; intros infos free Hlen Hall Hnd Hroom.
  - simpl. lia.
  - cbn [place_all map] in *.
    replace (Z.of_nat (List.length (ts :: tss)))
      with (1 + Z.of_nat (List.length tss)) in * by (simpl List.length; lia).
    assert (Hfit : mem (field 0 ts) (map code infos) = true \/ (0 < free)%nat).
    { destruct (mem (field 0 ts) (map code infos)) eqn:Em; [left; reflexivity|].
      right. destruct free; [|lia]. exfalso.
      rewrite first_seen_app, first_seen_NoDup in Hroom by assumption.
      simpl in Hroom. rewrite Em in Hroom. simpl in Hroom.
      rewrite length_app, length_map in Hroom. simpl in Hroom. lia. }
    assert (Hall1 : Forall (in_range 1) infos).
    { eapply Forall_impl; [|exact Hall]. unfold in_range. intros; lia. }
    pose proof (place_total ts infos free Hall1 Hfit) as Ht.
    pose proof (place_NoDup ts infos free Hnd) as Hn.
    pose proof (place_codes ts infos free) as Hc.
    pose proof (place_length ts infos free) as Hl.
    assert (Hb : Forall (in_range (Z.of_nat (List.length tss)))
                   (fst (place ts infos free))).
    { apply place_in_range; [lia | exact Hlen | exact Hall]. }
    destruct (place ts infos free) as [i k]. cbn [fst snd] in *.
    rewrite (IH i k); [lia | lia | exact Hb | exact Hn |].
    rewrite Hl, Hc.
    destruct (mem (field 0 ts) (map code infos)) eqn:Em.
    + rewrite <- (first_seen_known (field 0 ts)) by assumption. exact Hroom.
    + destruct free as [|free']; [destruct Hfit; [discriminate|lia]|].
      rewrite <- app_assoc. exact Hroom.
Qed.

End Counts.

(** C5, as the program has it.  For well-formed lines (fewer than 2^64)
    read into the empty table of [main], with the memory for its
    entries, the run ends normally and the record count of each entry is
    the number of lines with its code, however many codes there are;
    when the lines carry at most 50 different codes, the record counts of
    the entries sum to the number of lines. *)
Theorem record_counts (lines : list string) (heap : nat) :
  all_well_formed lines = true ->
  (List.length (firstn NUM_STATES (first_seen (map region_code lines)))
   <= heap)%nat ->
  Z.of_nat (List.length lines) < 2 ^ 64 ->
  exists infos free heap',
    analyze_lines lines (repeat None NUM_STATES) NUM_STATES heap =
      Done (table infos free, heap')
    /\ (forall info, In info infos ->
          num_records info = count_code (code info) (map fields lines))
    /\ ((List.length (first_seen (map region_code lines)) <= NUM_STATES)%nat ->
        total_records infos = Z.of_nat (List.length lines)).
Proof.
  intros Hwf Hheap Hlen.
  pose proof (fresh_run lines heap Hwf Hheap) as Hrun.
  pose proof (place_all_NoDup (map fields lines) [] NUM_STATES (NoDup_nil _))
    as Hnd.
  eexists _, _, _. split; [exact Hrun|]. split.
  - intros info Hin.
    rewrite <- (records_of_In _ Hnd info Hin).
    rewrite place_all_records.
    + reflexivity.
    + rewrite length_map. exact Hlen.
    + constructor.
    + constructor.
    + apply mem_In, in_map, Hin.
  - intros Hroom. rewrite place_all_total.
    + rewrite length_map. reflexivity.
    + rewrite length_map. exact Hlen.
    + constructor.
    + constructor.
    + rewrite map_map. exact Hroom.
Qed.

Lemma record_counts_witness :
  exists infos free heap',
    analyze_lines [tn_first; tn_second; record_of "WA"]
      (repeat None NUM_STATES) NUM_STATES 2 =
      Done (table infos free, heap')
    /\ (forall info, In info infos ->
          num_records info =
          count_code (code info)
            (map fields [tn_first; tn_second; record_of "WA"]))
    /\ total_records infos = 3.
Proof.
  destruct (record_counts [tn_first; tn_second; record_of "WA"] 2)
    as (infos & free & heap' & Hrun & Hcount & Htotal).
  - vm_compute. reflexivity.
  - vm_compute. lia.
  - vm_compute. reflexivity.
  - exists infos, free, heap'. split; [exact Hrun|]. split; [exact Hcount|].
    apply Htotal. vm_compute. lia.
Defined.

(** C5 as it is worded fails on records of 51 states: all 51 lines are
    well-formed and read to the end, the record counts sum to 50. *)
Lemma record_counts_counterexample :
  all_well_formed (state_lines 51) = true
  /\ Z.of_nat (List.length (state_lines 51)) = 51
  /\ analyze_lines (state_lines 51) (repeat None NUM_STATES) NUM_STATES 51 =
       Done (map Some full_infos, 1%nat)
  /\ total_records full_infos = 50
  /\ total_records full_infos <> Z.of_nat (List.length (state_lines 51)).
Proof.
  split; [vm_compute; reflexivity|]. split; [vm_compute; reflexivity|].
  split; [vm_compute; reflexivity|]. split; [vm_compute; reflexivity|].
  vm_compute. discriminate.
Qed.

(** C6. When the second field of a line is the decimal numeral of the
    integer [ms] (a [long long]), the time the line carries is [ms]
    divided by 1000 with the fraction cut off: both times of an entry the
    line creates are that quotient, and it is the time written next to an
    extremum the line replaces in an entry it is added to.  For a time
    that is not negative the quotient is the floor of [ms / 1000]. *)
Theorem timestamp_in_seconds
    (line c t2 t3 t4 t5 t6 t7 t8 : string) (extra : list string)
    (ms : Z) (n heap : nat) :
  LLONG_MIN <= ms <= LLONG_MAX ->
  fields line =
    c :: decimal ms :: t2 :: t3 :: t4 :: t5 :: t6 :: t7 :: t8 :: extra ->
  (forall infos free,
      (String.length c <= 2)%nat -> mem c (map code infos) = false ->
      (List.length infos < n)%nat ->
      exists e,
        analyze_line line (table infos (S free)) n (S heap) =
          Done (table (infos ++ [e]) free, heap)
        /\ max_timestamp e = Z.quot ms 1000
        /\ min_timestamp e = Z.quot ms 1000)
  /\ (forall pre info post,
      Forall (other c) pre -> code info = c -> (List.length pre < n)%nat ->
      exists info',
        analyze_line line (pre ++ Some info :: post) n heap =
          Done (pre ++ Some info' :: post, heap)
        /\ max_timestamp info' =
             (if fgt (fahrenheit (atof t8)) (max_temperature info)
              then Z.quot ms 1000 else max_timestamp info)
        /\ min_timestamp info' =
             (if fgt (min_temperature info) (fahrenheit (atof t8))
              then Z.quot ms 1000 else min_timestamp info))
  /\ (0 <= ms -> Z.quot ms 1000 = ms / 1000).
Proof.
  intros Hms Hf. split; [|split].
  - intros infos free Hc Hmem Hn.
    exists (created (fields line)). split.
    + unfold table. rewrite map_app, <- app_assoc. cbn [repeat map app].
      eapply analyze_line_new; try eassumption.
      * apply others_of_entries, Hmem.
      * rewrite length_map. exact Hn.
    + rewrite Hf. unfold created, timestamp_of, field.
      cbn [nth max_timestamp min_timestamp].
      rewrite atoll_decimal by exact Hms. split; reflexivity.
  - intros pre info post Hpre Hc Hn.
    exists (folded info (fields line)). split.
    + eapply analyze_line_hit; eassumption.
    + rewrite Hf. unfold folded, timestamp_of, temperature_of, field.
      cbn [nth max_timestamp min_timestamp].
      rewrite atoll_decimal by exact Hms. split; reflexivity.
  - intros Hpos. apply Z.quot_div_nonneg; lia.
Qed.

Lemma timestamp_in_seconds_witness :
  exists e,
    analyze_line tn_first (table [] NUM_STATES) NUM_STATES 1 =
      Done (table ([] ++ [e]) 49, 0%nat)
    /\ max_timestamp e = Z.quot 1420000000000 1000
    /\ min_timestamp e = Z.quot 1420000000000 1000.
Proof.
  destruct (timestamp_in_seconds tn_first "TN" "dn6m9tq7yc80" "50" "0" "40" "1"
              "95644.0" "283.15" [] 1420000000000 NUM_STATES 0)
    as (Hnew & _ & _).
  - unfold LLONG_MIN, LLONG_MAX. lia.
  - vm_compute. reflexivity.
  - apply (Hnew [] 49%nat).
    + simpl. lia.
    + reflexivity.
    + unfold NUM_STATES. simpl. lia.
Defined.

(** ** The conversion of the temperature *)

(** C7, as the program has it.  The temperature of a line is the [double]
    read from the last field, multiplied by the [double] nearest to 1.8,
    less the [double] nearest to 459.67, each operation rounded to
    [double], and the result rounded to [float] by the assignment to
    [temperature].  That [float] is what an entry created by the line
    holds as maximum, minimum and (widened) sum, what is compared with the
    extrema of an entry the line is added to and added to its sum, and
    what the report hands to [printf], widened to [double]. *)
Theorem kelvin_to_fahrenheit
    (line c t1 t2 t3 t4 t5 t6 t7 t8 : string) (extra : list string)
    (n heap : nat) :
  fields line = c :: t1 :: t2 :: t3 :: t4 :: t5 :: t6 :: t7 :: t8 :: extra ->
  let temperature :=
    SFconv flt_prec flt_emax
      (SFsub dbl_prec dbl_emax
         (SFmul dbl_prec dbl_emax (atof t8) (atof "1.8")) (atof "459.67")) in
  (forall infos free,
      (String.length c <= 2)%nat -> mem c (map code infos) = false ->
      (List.length infos < n)%nat ->
      exists e,
        analyze_line line (table infos (S free)) n (S heap) =
          Done (table (infos ++ [e]) free, heap)
        /\ max_temperature e = temperature
        /\ min_temperature e = temperature
        /\ sum_temperature e = SFconv ldbl_prec ldbl_emax temperature)
  /\ (forall pre info post,
      Forall (other c) pre -> code info = c -> (List.length pre < n)%nat ->
      exists info',
        analyze_line line (pre ++ Some info :: post) n heap =
          Done (pre ++ Some info' :: post, heap)
        /\ max_temperature info' =
             (if SFltb (max_temperature info) temperature
              then temperature else max_temperature info)
        /\ min_temperature info' =
             (if SFltb temperature (min_temperature info)
              then temperature else min_temperature info)
        /\ sum_temperature info' =
             SFadd ldbl_prec ldbl_emax (sum_temperature info)
               (SFconv ldbl_prec ldbl_emax temperature))
  /\ (forall info,
      In (Printf "Max Temperature: %0.1fF\n"
            [ADouble (SFconv dbl_prec dbl_emax (max_temperature info))])
         (report_block info)
      /\ In (Printf "Min Temperature: %0.1fF\n"
               [ADouble (SFconv dbl_prec dbl_emax (min_temperature info))])
            (report_block info)).
Proof.
  intros Hf temperature.
  assert (Ht : temperature_of (fields line) = temperature).
  { rewrite Hf. reflexivity. }
  split; [|split].
  - intros infos free Hc Hmem Hn.
    exists (created (fields line)). split.
    + unfold table. rewrite map_app, <- app_assoc. cbn [repeat map app].
      eapply analyze_line_new; try eassumption.
      * apply others_of_entries, Hmem.
      * rewrite length_map. exact Hn.
    + unfold created. cbn [max_temperature min_temperature sum_temperature].
      rewrite Ht. repeat split.
  - intros pre info post Hpre Hc Hn.
    exists (folded info (fields line)). split.
    + eapply analyze_line_hit; eassumption.
    + unfold folded. cbn [max_temperature min_temperature sum_temperature].
      rewrite Ht. repeat split.
  - intros info. unfold report_block. simpl. tauto.
Qed.

Lemma kelvin_to_fahrenheit_witness :
  exists e,
    analyze_line tn_300 (table [] NUM_STATES) NUM_STATES 1 =
      Done (table ([] ++ [e]) 49, 0%nat)
    /\ max_temperature e = S754_finite false 10529014 (-17).
Proof.
  destruct (kelvin_to_fahrenheit tn_300 "TN" "1420000000000" "dn6m9tq7yc80"
              "50" "0" "40" "1" "95644.0" "300" [] NUM_STATES 0)
    as (Hnew & _ & _).
  - vm_compute. reflexivity.
  - destruct (Hnew [] 49%nat) as (e & Hrun & Hmax & _).
    + simpl. lia.
    + reflexivity.
    + unfold NUM_STATES. simpl. lia.
    + exists e. split; [exact Hrun|]. rewrite Hmax. vm_compute. reflexivity.
Defined.

(** C7 as it is worded fails at 300 K: the formula gives 80.33 exactly;
    the entry holds 5264507 / 2^16, which is another number, and it is
    not the [double] the two operations gave either: the assignment to
    the [float] variable rounded it. *)
Lemma kelvin_to_fahrenheit_counterexample :
  exists e,
    analyze_line tn_300 (repeat None NUM_STATES) NUM_STATES 1 =
      Done (Some e :: repeat None 49, 0%nat)
    /\ SF2Q (atof "300") = Some (300 # 1)
    /\ SF2Q (max_temperature e) = Some (5264507 # 65536)
    /\ ~ Qeq (5264507 # 65536) ((300 # 1) * (18 # 10) - (45967 # 100))
    /\ max_temperature e <>
         SFsub dbl_prec dbl_emax
           (SFmul dbl_prec dbl_emax (atof "300") c_1_8) c_459_67.
Proof.
  exists (created (fields tn_300)).
  split; [vm_compute; reflexivity|].
  split; [vm_compute; reflexivity|].
  split; [vm_compute; reflexivity|].
  split; [vm_compute; discriminate|].
  vm_compute. discriminate.
Qed.

(** ** Lines that are not records *)

Section Malformed.



Lemma bind_undef {A B} (m : tok A) (k : A -> tok B) sp f :
  m sp = Undef f -> bind m k sp = Undef f.
Proof. unfold bind. intros ->. reflexivity. Qed.

(** Reads fields until they run out. *)
Ltac read_short H :=
  repeat match goal with
         | H0 : tokens ?sp = [] |- context [bind next_arg _ ?sp] =>
             rewrite (bind_undef _ _ _ _ (next_arg_nil sp H0)); reflexivity
         | _ => read_field H
         end.

(** With fewer than eight fields after the code, a null pointer reaches
    one of the conversions. *)
Lemma update_entry_short info sp :
  (List.length (tokens sp) < 8)%nat -> update_entry info sp = Undef NullPointer.
Proof.
  intros Hlen. unfold update_entry.
  destruct (tokens sp) as [|t1 [|t2 [|t3 [|t4 [|t5 [|t6 [|t7 [|t8 extra]]]]]]]]
    eqn:H; simpl in Hlen; try lia; read_short H.
Qed.

Lemma new_entry_short c sp :
  (List.length (tokens sp) < 8)%nat ->
  exists f, new_entry (Some c) sp = Undef f.
Proof.
  intros Hlen. unfold new_entry, strcpy_code, deref.
  unfold bind at 1. unfold bind at 1. unfold ret at 1.
  destruct (String.length c <=? 2)%nat; [|exists CodeOverflow; reflexivity].
  unfold ret at 1. exists NullPointer.
  destruct (tokens sp) as [|t1 [|t2 [|t3 [|t4 [|t5 [|t6 [|t7 [|t8 extra]]]]]]]]
    eqn:H; simpl in Hlen; try lia; read_short H.
Qed.

Lemma first_entry c : forall infos,
  mem c (map code infos) = true ->
  exists pre info post,
    infos = pre ++ info :: post /\ code info = c
    /\ Forall (other c) (map Some pre).
Proof.
  induction infos as [|x infos IH]; intros H; [discriminate|].
  unfold mem in H. simpl in H.
  destruct (String.eqb c (code x)) eqn:E.
  - apply String.eqb_eq in E. exists [], x, infos.
    repeat split; [symmetry; exact E | constructor].
  - destruct (IH H) as (pre & info & post & -> & Hc & Hpre).
    exists (x :: pre), info, post. repeat split; [exact Hc|].
    constructor; [|exact Hpre].
    exists x. split; [reflexivity|]. apply String.eqb_neq.
    rewrite String.eqb_sym. exact E.
Qed.

(** A line with a code and fewer than nine fields, when it is not dropped
    by a full table, takes the program out of defined behaviour. *)
Lemma short_line_undefined line c infos free heap :
  hd_error (fields line) = Some c ->
  (List.length (fields line) < 9)%nat ->
  mem c (map code infos) = true \/ (0 < free /\ 0 < heap)%nat ->
  exists f,
    analyze_line line (table infos free) (List.length infos + free) heap =
    Undef f.
Proof.
  intros Hc Hlen Hroom. unfold analyze_line.
  destruct (first_token line) as (sp & E & T). rewrite E, Hc.
  assert (Hsp : (List.length (tokens sp) < 8)%nat).
  { rewrite T. destruct (fields line); simpl in *; lia. }
  destruct (mem c (map code infos)) eqn:Em.
  - destruct (first_entry c infos Em) as (pre & info & post & -> & Hi & Hpre).
    unfold table. rewrite map_app, <- app_assoc. cbn [map app].
    rewrite scan_hit;
      [|exact Hpre | exact Hi | rewrite length_map, length_app; simpl; lia].
    rewrite update_entry_short by exact Hsp. exists NullPointer. reflexivity.
  - destruct Hroom as [Hr|[Hfree Hheap]]; [discriminate|].
    destruct free as [|free']; [lia|]. destruct heap as [|heap']; [lia|].
    unfold table. cbn [repeat].
    rewrite scan_new;
      [|apply others_of_entries, Em | rewrite length_map; lia].
    destruct (new_entry_short c sp Hsp) as (f & ->). exists f. reflexivity.
Qed.




End Malformed.




(** ** More on the order of floating-point values *)

Section FloatOrderMore.




End FloatOrderMore.

(** ** The extremes of a state *)

Section Extremum.

(** [beats m t]: the temperature [t] replaces the extreme [m];
    [within x m]: the temperature [x] does not go beyond [m]. *)
Variables beats within : spec_float -> spec_float -> bool.

Hypothesis beats_within : forall a b, beats a b = true -> within a b = true.
Hypothesis within_refl : forall a, a <> S754_nan -> within a a = true.
Hypothesis within_beats : forall a b c,
  within a b = true -> beats b c = true -> beats a c = true.
Hypothesis not_beaten : forall a b,
  a <> S754_nan -> b <> S754_nan -> beats a b = false -> within b a = true.

(** The extreme an entry holds and the time next to it. *)
Variables (ext : climate_info -> spec_float) (time : climate_info -> Z).

Hypothesis ext_created : forall ts, ext (created ts) = temperature_of ts.
Hypothesis time_created : forall ts, time (created ts) = timestamp_of ts.
Hypothesis ext_folded : forall info ts,
  ext (folded info ts) =
  if beats (ext info) (temperature_of ts) then temperature_of ts else ext info.
Hypothesis time_folded : forall info ts,
  time (folded info ts) =
  if beats (ext info) (temperature_of ts) then timestamp_of ts else time info.


End Extremum.

(** ** What a run leaves for each state *)

Section States.

Lemma lines_of_well_formed c lines :
  all_well_formed lines = true -> all_well_formed (lines_of c lines) = true.
Proof.
  unfold all_well_formed, lines_of.
  induction lines as [|l lines IH]; [reflexivity|]. simpl.
  intros H. apply andb_true_iff in H as [Hl H].
  destruct (String.eqb (region_code l) c); simpl; [rewrite Hl|]; apply IH, H.
Qed.

(** A run over well-formed lines ends normally and every entry is the
    summary of the lines of its state. *)
Lemma run_summaries lines heap :
  all_well_formed lines = true -> (NUM_STATES <= heap)%nat ->
  exists infos free heap',
    analyze_lines lines (repeat None NUM_STATES) NUM_STATES heap =
      Done (table infos free, heap')
    /\ forall info, In info infos ->
         summary (map fields (lines_of (code info) lines)) = Some info.
Proof.
  intros Hwf Hheap.
  pose proof (analyze_lines_table lines [] NUM_STATES heap Hwf Hheap) as Hrun.
  eexists _, _, _. split; [exact Hrun|].
  intros info Hin. rewrite <- group_fields.
  apply (run_settled (map fields lines) NUM_STATES), Hin.
Qed.







End States.

(** X1. The statistics of a state depend on the lines of that state
    alone: in a run over well-formed lines, the entry of each state is the
    entry that the lines of that state, fed to an empty table by
    themselves and in the same order, leave as the only one. *)
Theorem each_state_alone (lines : list string) (heap : nat) :
  all_well_formed lines = true ->
  (NUM_STATES <= heap)%nat ->
  exists infos free heap',
    analyze_lines lines (repeat None NUM_STATES) NUM_STATES heap =
      Done (table infos free, heap')
    /\ forall info, In info infos ->
         analyze_lines (lines_of (code info) lines)
           (repeat None NUM_STATES) NUM_STATES heap =
         Done (table [info] (NUM_STATES - 1), (heap - 1)%nat).
Proof.
  intros Hwf Hheap.
  destruct (run_summaries lines heap Hwf Hheap)
    as (infos & free & heap' & Hrun & Hsum).
  exists infos, free, heap'. split; [exact Hrun|].
  intros info Hin. specialize (Hsum info Hin).
  pose proof (analyze_lines_table (lines_of (code info) lines) [] NUM_STATES
                heap (lines_of_well_formed _ _ Hwf) Hheap) as Hone.
  rewrite <- group_fields in Hone, Hsum.
  pose proof (place_all_group (code info) (map fields lines) info 49 Hsum)
    as Hg.
  change NUM_STATES with 50%nat in Hone. rewrite Hg in Hone. exact Hone.
Qed.

Lemma each_state_alone_witness :
  exists infos free heap',
    analyze_lines [tn_first; record_of "WA"; tn_second]
      (repeat None NUM_STATES) NUM_STATES 50 =
      Done (table infos free, heap')
    /\ forall info, In info infos ->
         analyze_lines (lines_of (code info) [tn_first; record_of "WA"; tn_second])
           (repeat None NUM_STATES) NUM_STATES 50 =
         Done (table [info] (NUM_STATES - 1), (50 - 1)%nat).
Proof.
  apply (each_state_alone [tn_first; record_of "WA"; tn_second] 50).
  - vm_compute. reflexivity.
  - vm_compute. lia.
Defined.








(** X7. In a run over well-formed lines from the empty table, [malloc] is
    called once for each different code, up to 50.  With less memory than
    that the run prints the allocation error and exits with
    [EXIT_FAILURE]; with that much or more it ends normally, with one
    entry per such code and the rest of the memory untouched. *)
Theorem allocations (lines : list string) (heap : nat) :
  all_well_formed lines = true ->
  let d := List.length (firstn NUM_STATES (first_seen (map region_code lines))) in
  ((heap < d)%nat ->
   analyze_lines lines (repeat None NUM_STATES) NUM_STATES heap =
   Exit EXIT_FAILURE alloc_error)
  /\ ((d <= heap)%nat ->
      exists infos,
        analyze_lines lines (repeat None NUM_STATES) NUM_STATES heap =
        Done (table infos (NUM_STATES - d), (heap - d)%nat)
        /\ List.length infos = d).
Proof.
  intros Hwf d.
  destruct (analyze_lines_heap lines [] NUM_STATES heap Hwf) as [Hexit Hdone].
  pose proof (place_all_codes (map fields lines) [] NUM_STATES (NoDup_nil _))
    as Hc.
  pose proof (place_all_length (map fields lines) [] NUM_STATES) as Hl.
  cbn [map app List.length Nat.add] in Hc, Hl. rewrite map_map in Hc.
  assert (Hd : List.length (fst (place_all (map fields lines) [] NUM_STATES)) = d).
  { rewrite <- (length_map code), Hc. reflexivity. }
  assert (Hk : (NUM_STATES - snd (place_all (map fields lines) [] NUM_STATES))%nat = d)
    by lia.
  assert (Hk' : snd (place_all (map fields lines) [] NUM_STATES)
                = (NUM_STATES - d)%nat) by lia.
  rewrite Hk in Hexit, Hdone. split.
  - exact Hexit.
  - intros H. exists (fst (place_all (map fields lines) [] NUM_STATES)).
    split; [|exact Hd]. rewrite <- Hk' at 1. apply Hdone, H.
Qed.

Lemma allocations_witness :
  ((1 < 2)%nat ->
   analyze_lines [tn_first; record_of "WA"; tn_second]
     (repeat None NUM_STATES) NUM_STATES 1 =
   Exit EXIT_FAILURE alloc_error)
  /\ ((2 <= 2)%nat ->
      exists infos,
        analyze_lines [tn_first; record_of "WA"; tn_second]
          (repeat None NUM_STATES) NUM_STATES 2 =
        Done (table infos (NUM_STATES - 2), (2 - 2)%nat)
        /\ List.length infos = 2%nat).
Proof.
  split.
  - apply (allocations [tn_first; record_of "WA"; tn_second] 1).
    vm_compute. reflexivity.
  - apply (allocations [tn_first; record_of "WA"; tn_second] 2).
    vm_compute. reflexivity.
Defined.

(** ** What the report shows *)

(** X5. In a run of [main] over well-formed lines (at least one), the
    report covers between 1 and 50 states and no state twice: the codes
    of the entries it prints are all different. *)
Theorem report_without_repeats
    (fopen : string -> option string) (heap : nat) (prog : string)
    (args : list string) :
  (0 < List.length (all_lines fopen args))%nat ->
  all_well_formed (all_lines fopen args) = true ->
  (NUM_STATES <= heap)%nat ->
  exists es,
    main fopen heap prog args =
      Terminated 0 (map (file_message fopen) args ++ report_of es)
    /\ NoDup (map code es)
    /\ (1 <= List.length es <= NUM_STATES)%nat.
Proof.
  intros Hlines Hwf Hheap.
  assert (Hargs : args <> []) by (intros ->; simpl in Hlines; lia).
  exists (fst (place_all (map fields (all_lines fopen args)) [] NUM_STATES)).
  split; [|split].
  - rewrite main_table by assumption.
    destruct (all_lines fopen args); [simpl in Hlines; lia | reflexivity].
  - apply place_all_NoDup. constructor.
  - pose proof (place_all_length (map fields (all_lines fopen args)) [] NUM_STATES)
      as Hl.
    assert (Hne : fst (place_all (map fields (all_lines fopen args)) [] NUM_STATES)
                  <> []).
    { destruct (all_lines fopen args) as [|l ls]; [simpl in Hlines; lia|].
      cbn [map place_all].
      pose proof (place_nonempty (fields l) [] NUM_STATES) as Hp.
      destruct (place (fields l) [] NUM_STATES) as [i k].
      apply place_all_nonempty, Hp. unfold NUM_STATES. simpl. lia. }
    destruct (fst (place_all (map fields (all_lines fopen args)) [] NUM_STATES));
      [congruence|]. simpl in *. lia.
Qed.

Lemma report_without_repeats_witness :
  exists es,
    main two_files 50 "climate" ["one.tdv"; "two.tdv"] =
      Terminated 0
        (map (file_message two_files) ["one.tdv"; "two.tdv"] ++ report_of es)
    /\ NoDup (map code es)
    /\ (1 <= List.length es <= NUM_STATES)%nat.
Proof.
  apply (report_without_repeats two_files 50 "climate" ["one.tdv"; "two.tdv"]).
  - vm_compute. lia.
  - vm_compute. reflexivity.
  - vm_compute. lia.
Defined.



(** ** The bounds of the table *)

Section Bounds.

Ltac same_fault H :=
  let E := fresh "E" in intros E; inversion E; subst; apply H; reflexivity.

Lemma bind_in_bounds {A B} (m : tok A) (k : A -> tok B) sp :
  m sp <> Undef OutOfBounds ->
  (forall a sp', k a sp' <> Undef OutOfBounds) ->
  bind m k sp <> Undef OutOfBounds.
Proof.
  unfold bind. intros Hm Hk.
  destruct (m sp) as [[a sp']|s o|f]; [apply Hk | discriminate | same_fault Hm].
Qed.

Lemma deref_in_bounds p sp : deref p sp <> Undef OutOfBounds.
Proof. destruct p; discriminate. Qed.

Lemma next_arg_in_bounds sp : next_arg sp <> Undef OutOfBounds.
Proof.
  unfold next_arg. apply bind_in_bounds; [discriminate|].
  intros a sp'. apply deref_in_bounds.
Qed.

Lemma next_token_in_bounds sp : next_token sp <> Undef OutOfBounds.
Proof. discriminate. Qed.

Ltac in_bounds :=
  repeat (apply bind_in_bounds;
          [first [apply next_arg_in_bounds | apply next_token_in_bounds] | intros ? ?]);
  discriminate.

Lemma update_entry_in_bounds info sp : update_entry info sp <> Undef OutOfBounds.
Proof. unfold update_entry. in_bounds. Qed.

Lemma new_entry_in_bounds token sp : new_entry token sp <> Undef OutOfBounds.
Proof.
  unfold new_entry. apply bind_in_bounds.
  - unfold strcpy_code. apply bind_in_bounds; [apply deref_in_bounds|].
    intros t sp'. destruct (String.length t <=? 2)%nat; discriminate.
  - intros c sp'. in_bounds.
Qed.

Lemma scan_entry n t info rest heap sp :
  scan (S n) (Some t) (Some info :: rest) heap sp =
  if String.eqb (code info) t then
    match update_entry info sp with
    | Done (e, sp') => Done ((Some e :: rest, heap), sp')
    | Exit s o => Exit s o
    | Undef f => Undef f
    end
  else
    match scan n (Some t) rest heap sp with
    | Done (r, sp') => Done ((Some info :: fst r, snd r), sp')
    | Exit s o => Exit s o
    | Undef f => Undef f
    end.
Proof.
  cbn [scan]. unfold bind at 1. cbn [deref ret].
  destruct (String.eqb (code info) t); reflexivity.
Qed.

(** The scan stays within a table that has [num_states] slots or more,
    and leaves it as long as it was. *)
Lemma scan_in_bounds token heap : forall n states sp,
  (n <= List.length states)%nat ->
  scan n token states heap sp <> Undef OutOfBounds
  /\ forall s h sp', scan n token states heap sp = Done ((s, h), sp') ->
       List.length s = List.length states.
Proof.
  induction n as [|n IH]; intros states sp Hn.
  - split; [discriminate|]. intros s h sp' H. inversion H. reflexivity.
  - destruct states as [|slot rest]; [simpl in Hn; lia|].
    simpl in Hn. destruct slot as [info|].
    + destruct token as [t|];
        [|split; [discriminate | intros s h sp' H; discriminate H]].
      rewrite scan_entry. destruct (String.eqb (code info) t).
      * pose proof (update_entry_in_bounds info sp) as Hu.
        destruct (update_entry info sp) as [[e sp1]|s o|f].
        -- split; [discriminate|]. intros s h sp' H. inversion H. reflexivity.
        -- split; [discriminate|]. intros s0 h sp' H. discriminate H.
        -- split; [same_fault Hu|]. intros s h sp' H. discriminate H.
      * destruct (IH rest sp ltac:(lia)) as [Hb Hlen].
        destruct (scan n (Some t) rest heap sp) as [[[s1 h1] sp1]|s o|f].
        -- split; [discriminate|]. intros s h sp' H. inversion H.
           simpl. f_equal. eapply Hlen. reflexivity.
        -- split; [discriminate|]. intros s0 h sp' H. discriminate H.
        -- split; [same_fault Hb|]. intros s h sp' H. discriminate H.
    + cbn [scan]. destruct heap as [|heap'].
      * split; [discriminate|]. intros s h sp' H. discriminate H.
      * pose proof (new_entry_in_bounds token sp) as Hu. unfold bind, ret.
        destruct (new_entry token sp) as [[e sp1]|s o|f].
        -- split; [discriminate|]. intros s h sp' H. inversion H. reflexivity.
        -- split; [discriminate|]. intros s0 h sp' H. discriminate H.
        -- split; [same_fault Hu|]. intros s h sp' H. discriminate H.
Qed.

Lemma analyze_line_in_bounds line states n heap :
  (n <= List.length states)%nat ->
  analyze_line line states n heap <> Undef OutOfBounds
  /\ forall s h, analyze_line line states n heap = Done (s, h) ->
       List.length s = List.length states.
Proof.
  intros Hn. unfold analyze_line.
  destruct (strtok delim (c_str line)) as [token sp].
  destruct (scan_in_bounds token heap n states sp Hn) as [Hb Hlen].
  destruct (scan n token states heap sp) as [[[s1 h1] sp1]|s o|f].
  - split; [discriminate|]. intros s h H. inversion H; subst.
    eapply Hlen. reflexivity.
  - split; [discriminate|]. intros s0 h H. discriminate H.
  - split; [same_fault Hb|]. intros s h H. discriminate H.
Qed.

Lemma analyze_loop_in_bounds n fuel : forall file states heap,
  (n <= List.length states)%nat ->
  analyze_loop fuel file states n heap <> Undef OutOfBounds
  /\ forall s h, analyze_loop fuel file states n heap = Done (s, h) ->
       List.length s = List.length states.
Proof.
  induction fuel as [|fuel IH]; intros file states heap Hn.
  - split; [discriminate|]. intros s h H. inversion H. reflexivity.
  - cbn [analyze_loop].
    destruct (fgets line_sz file) as [[line file']|].
    + destruct (analyze_line_in_bounds line states n heap Hn) as [Hb Hlen].
      destruct (analyze_line line states n heap) as [[s1 h1]|s o|f].
      * specialize (Hlen s1 h1 eq_refl).
        destruct (IH file' s1 h1 ltac:(lia)) as [Hb' Hlen'].
        split; [exact Hb'|]. intros s h H. rewrite (Hlen' s h H). exact Hlen.
      * split; [discriminate|]. intros s0 h H. discriminate H.
      * split; [same_fault Hb|]. intros s h H. discriminate H.
    + split; [discriminate|]. intros s h H. inversion H. reflexivity.
Qed.

Lemma main_loop_in_bounds fopen args : forall states heap out,
  List.length states = NUM_STATES ->
  match main_loop fopen args states heap out with
  | inl r => forall o, r <> Crashed OutOfBounds o
  | inr (states', _) => List.length states' = NUM_STATES
  end.
Proof.
  induction args as [|path args IH]; intros states heap out Hlen.
  - exact Hlen.
  - cbn [main_loop]. destruct (fopen path) as [file|]; [|apply IH, Hlen].
    destruct (analyze_loop_in_bounds NUM_STATES (String.length file) file
                states heap ltac:(lia)) as [Hb Hl].
    unfold analyze_file.
    destruct (analyze_loop (String.length file) file states NUM_STATES heap)
      as [[s1 h1]|s o|f].
    + apply IH. rewrite (Hl s1 h1 eq_refl). exact Hlen.
    + intros o'. discriminate.
    + intros o' H. inversion H. congruence.
Qed.

Lemma entries_in_bounds n : forall states,
  (n <= List.length states)%nat -> entries n states <> None.
Proof.
  induction n as [|n IH]; intros states Hn; [discriminate|].
  destruct states as [|slot rest]; [simpl in Hn; lia|].
  simpl in Hn. cbn [entries]. specialize (IH rest ltac:(lia)).
  destruct (entries n rest); [discriminate | congruence].
Qed.

End Bounds.

(** X8. Whatever the files hold, [main] never reads or writes the table
    past its 50 slots: no run ends in the fault [OutOfBounds], neither in
    the scan of [analyze_file] nor in the two loops of [print_report]. *)
Theorem table_never_overrun
    (fopen : string -> option string) (heap : nat) (prog : string)
    (args : list string) (out : list print) :
  main fopen heap prog args <> Crashed OutOfBounds out.
Proof.
  unfold main. destruct args as [|a args]; [discriminate|].
  pose proof (main_loop_in_bounds fopen (a :: args) (repeat None NUM_STATES)
                heap [] (repeat_length _ _)) as H.
  destruct (main_loop fopen (a :: args) (repeat None NUM_STATES) heap [])
    as [r|[states o]].
  - apply H.
  - destruct states as [|[info|] rest]; try discriminate.
    unfold print_report.
    pose proof (entries_in_bounds NUM_STATES (Some info :: rest) ltac:(lia)) as He.
    destruct (entries NUM_STATES (Some info :: rest)); [discriminate | congruence].
Qed.

(** ** Files in the layout of the header *)

Section Layout.

Lemma string_app_assoc (a b c : string) :
  ((a ++ b) ++ c = a ++ (b ++ c))%string.
Proof. induction a as [|x a IH]; simpl; [reflexivity | rewrite IH; reflexivity]. Qed.

Lemma string_app_length (a b : string) :
  String.length (a ++ b) = (String.length a + String.length b)%nat.
Proof. induction a as [|x a IH]; simpl; [reflexivity | rewrite IH; reflexivity]. Qed.

Lemma avoids_app c a b :
  avoids c (a ++ b) = (avoids c a && avoids c b)%bool.
Proof.
  induction a as [|x a IH]; simpl; [reflexivity|].
  rewrite IH, andb_assoc. reflexivity.
Qed.

Lemma plain_field_parts f :
  plain_field f = true ->
  f <> EmptyString /\ avoids "009" f = true /\ avoids "010" f = true
  /\ avoids zero f = true.
Proof.
  unfold plain_field. intros H.
  apply andb_true_iff in H as [H H4]. apply andb_true_iff in H as [H H3].
  apply andb_true_iff in H as [H1 H2].
  apply negb_true_iff, String.eqb_neq in H1. tauto.
Qed.

Lemma is_delim_delim c :
  is_delim delim c = (Ascii.eqb c "009" || Ascii.eqb c "010")%bool.
Proof. unfold delim. cbn [is_delim]. rewrite orb_false_r. reflexivity. Qed.

Lemma head_not_delim c f :
  avoids "009" (String c f) = true -> avoids "010" (String c f) = true ->
  is_delim delim c = false.
Proof.
  cbn [avoids]. intros Ht Hn.
  apply andb_true_iff in Ht as [Hc1 _]. apply andb_true_iff in Hn as [Hc2 _].
  apply negb_true_iff in Hc1. apply negb_true_iff in Hc2.
  rewrite is_delim_delim, Hc1, Hc2. reflexivity.
Qed.

Lemma span_token_field f d rest :
  avoids "009" f = true -> avoids "010" f = true -> is_delim delim d = true ->
  span_token delim (f ++ String d rest) = (f, rest).
Proof.
  intros Ht Hn Hd. induction f as [|c f IH]; cbn [append span_token].
  - rewrite Hd. reflexivity.
  - rewrite (head_not_delim c f Ht Hn).
    cbn [avoids] in Ht, Hn. apply andb_true_iff in Ht as [_ Ht].
    apply andb_true_iff in Hn as [_ Hn].
    rewrite (IH Ht Hn). reflexivity.
Qed.

(** A field followed by a delimiter is the next token. *)
Lemma tokens_field f d rest :
  plain_field f = true -> is_delim delim d = true ->
  tokens (f ++ String d rest) = f :: tokens rest.
Proof.
  intros Hf Hd. destruct (plain_field_parts f Hf) as (Hne & Ht & Hn & _).
  rewrite tokens_strtok. unfold strtok.
  destruct f as [|c f]; [congruence|].
  cbn [append skip_delims]. rewrite (head_not_delim c f Ht Hn).
  change (String c (f ++ String d rest)) with (String c f ++ String d rest)%string.
  rewrite span_token_field by assumption. reflexivity.
Qed.

Lemma tdv_line_cons f g fs :
  tdv_line (f :: g :: fs) = (f ++ String "009" (tdv_line (g :: fs)))%string.
Proof.
  unfold tdv_line. cbn [String.concat]. unfold tab.
  rewrite !string_app_assoc. reflexivity.
Qed.

Lemma tokens_tdv_line fs :
  forallb plain_field fs = true -> tokens (tdv_line fs) = fs.
Proof.
  induction fs as [|f [|g fs] IH]; intros H.
  - reflexivity.
  - simpl in H. apply andb_true_iff in H as [Hf _].
    unfold tdv_line, newline. cbn [String.concat].
    rewrite tokens_field by (assumption || reflexivity). reflexivity.
  - cbn [forallb] in H. apply andb_true_iff in H as [Hf H].
    rewrite tdv_line_cons, tokens_field by (assumption || reflexivity).
    rewrite IH by exact H. reflexivity.
Qed.

Lemma c_str_avoids s : avoids zero s = true -> c_str s = s.
Proof.
  induction s as [|c s IH]; simpl; [reflexivity|]. intros H.
  apply andb_true_iff in H as [Hc H]. apply negb_true_iff in Hc.
  rewrite Hc, IH by exact H. reflexivity.
Qed.

(** A line avoids what its fields avoid, if tab and newline are not the
    character in question. *)
Lemma tdv_line_avoids c fs :
  forallb (avoids c) fs = true ->
  Ascii.eqb "009" c = false ->
  avoids c (String.concat tab fs) = true.
Proof.
  intros H Ht. induction fs as [|f [|g fs] IH]; [reflexivity | |].
  - simpl in *. apply andb_true_iff in H as [Hf _]. exact Hf.
  - cbn [forallb] in H. apply andb_true_iff in H as [Hf H].
    change (String.concat tab (f :: g :: fs))
      with (f ++ tab ++ String.concat tab (g :: fs))%string.
    rewrite !avoids_app, Hf, (IH H).
    unfold tab. cbn [avoids]. rewrite Ht. reflexivity.
Qed.

Lemma plain_fields_avoid fs :
  forallb plain_field fs = true ->
  forallb (avoids "010") fs = true /\ forallb (avoids zero) fs = true.
Proof.
  induction fs as [|f fs IH]; intros H; [split; reflexivity|].
  simpl in H. apply andb_true_iff in H as [Hf H].
  destruct (plain_field_parts f Hf) as (_ & _ & Hn & Hz).
  destruct (IH H) as [IH1 IH2]. simpl. rewrite Hn, Hz, IH1, IH2. tauto.
Qed.

(** The fields [strtok] cuts out of a line are the fields written. *)
Lemma fields_tdv_line fs :
  forallb plain_field fs = true -> fields (tdv_line fs) = fs.
Proof.
  intros H. unfold fields. destruct (plain_fields_avoid fs H) as [_ Hz].
  rewrite c_str_avoids; [apply tokens_tdv_line, H|].
  unfold tdv_line. rewrite avoids_app, tdv_line_avoids by (assumption || reflexivity).
  reflexivity.
Qed.

Lemma ends_line_newline s :
  avoids "010" s = true -> ends_line (s ++ newline) = true.
Proof.
  induction s as [|c s IH]; intros H; [reflexivity|].
  simpl in H. apply andb_true_iff in H as [Hc H].
  specialize (IH H). cbn [append]. cbn [ends_line].
  destruct (s ++ newline)%string as [|x r] eqn:E.
  - destruct s; discriminate.
  - rewrite Hc, IH. reflexivity.
Qed.

Lemma whole_tdv_line fs :
  plain_record fs = true -> whole_line (tdv_line fs) = true.
Proof.
  unfold plain_record, whole_line. intros H.
  apply andb_true_iff in H as [Hf Hlen]. rewrite Hlen.
  destruct (plain_fields_avoid fs Hf) as [Hn _].
  unfold tdv_line. rewrite ends_line_newline; [reflexivity|].
  apply tdv_line_avoids; [exact Hn | reflexivity].
Qed.

Lemma file_of_length ls :
  forallb whole_line ls = true ->
  (List.length ls <= String.length (file_of ls))%nat.
Proof.
  induction ls as [|l ls IH]; intros H; [simpl; lia|].
  simpl in H. apply andb_true_iff in H as [Hl H]. specialize (IH H).
  unfold whole_line in Hl. apply andb_true_iff in Hl as [_ He].
  cbn [file_of fold_right List.length]. fold (file_of ls).
  rewrite string_app_length. destruct l; [discriminate|]. simpl. lia.
Qed.

End Layout.

(** X9. A file written in the layout the header of [climate.c] describes
    is read back as it was written: when every field is non-empty and
    free of tab, newline and NUL, the fields of a record are joined by
    tabs and closed by a newline, and no line is longer than the 99
    characters [fgets] takes, then the lines [fgets] returns, cut by
    [strtok], are the records, field by field and in order. *)
Theorem tdv_round_trip (records : list (list string)) :
  forallb plain_record records = true ->
  map fields
    (read_lines (String.length (file_of (map tdv_line records)))
       (file_of (map tdv_line records))) = records.
Proof.
  intros H.
  assert (Hw : forallb whole_line (map tdv_line records) = true).
  { rewrite forallb_forall in *. intros l Hl.
    apply in_map_iff in Hl as (fs & <- & Hfs). apply whole_tdv_line, H, Hfs. }
  unfold file_of at 2.
  rewrite read_lines_whole by (exact Hw || apply file_of_length, Hw).
  rewrite map_map. rewrite <- (map_id records) at 2.
  apply map_ext_in. intros fs Hfs. apply fields_tdv_line.
  rewrite forallb_forall in H. specialize (H fs Hfs).
  unfold plain_record in H. apply andb_true_iff in H as [Hf _]. exact Hf.
Qed.

Lemma tdv_round_trip_witness :
  map fields
    (read_lines
       (String.length
          (file_of (map tdv_line
             [["TN"; "1420000000000"; "dn6m9tq7yc80"; "50"; "0"; "40"; "1";
               "95644.0"; "283.15"];
              ["WA"; "1430308800000"; "9prc9sgwvw80"; "4.0"; "0.0"; "100.0";
               "0.0"; "99226.0"; "282.63037"]])))
       (file_of (map tdv_line
          [["TN"; "1420000000000"; "dn6m9tq7yc80"; "50"; "0"; "40"; "1";
            "95644.0"; "283.15"];
           ["WA"; "1430308800000"; "9prc9sgwvw80"; "4.0"; "0.0"; "100.0";
            "0.0"; "99226.0"; "282.63037"]]))) =
  [["TN"; "1420000000000"; "dn6m9tq7yc80"; "50"; "0"; "40"; "1"; "95644.0";
    "283.15"];
   ["WA"; "1430308800000"; "9prc9sgwvw80"; "4.0"; "0.0"; "100.0"; "0.0";
    "99226.0"; "282.63037"]].
Proof.
  apply (tdv_round_trip
           [["TN"; "1420000000000"; "dn6m9tq7yc80"; "50"; "0"; "40"; "1";
             "95644.0"; "283.15"];
            ["WA"; "1430308800000"; "9prc9sgwvw80"; "4.0"; "0.0"; "100.0";
             "0.0"; "99226.0"; "282.63037"]]).
  vm_compute. reflexivity.
Defined.

(** ** Files one after the other *)

Section Compose.

Lemma analyze_loop_lines n fuel : forall file states heap,
  analyze_loop fuel file states n heap =
  analyze_lines (read_lines fuel file) states n heap.
Proof.
  induction fuel as [|fuel IH]; intros file states heap; [reflexivity|].
  cbn [analyze_loop read_lines].
  destruct (fgets line_sz file) as [[line file']|]; [|reflexivity].
  cbn [analyze_lines].
  destruct (analyze_line line states n heap) as [[s h]| |];
    [apply IH | reflexivity | reflexivity].
Qed.

(** Before a newline at its end, [fgets] does not see what follows a
    text. *)
Lemma fgets_aux_before k : forall f1 f2,
  ends_newline f1 = true ->
  fgets_aux k (f1 ++ f2) =
    (fst (fgets_aux k f1), (snd (fgets_aux k f1) ++ f2)%string)
  /\ (snd (fgets_aux k f1) = EmptyString
      \/ ends_newline (snd (fgets_aux k f1)) = true).
Proof.
  induction k as [|k IH]; intros f1 f2 H.
  - simpl. split; [reflexivity | right; exact H].
  - destruct f1 as [|c f1]; [discriminate|].
    cbn [append fgets_aux].
    destruct (Ascii.eqb c "010") eqn:Ec.
    + cbn [fst snd]. split; [reflexivity|].
      destruct f1 as [|c' f1']; [left; reflexivity | right; exact H].
    + assert (H1 : ends_newline f1 = true).
      { destruct f1 as [|c' f1']; [simpl in H; congruence | exact H]. }
      destruct (IH f1 f2 H1) as [E Hr]. rewrite E.
      destruct (fgets_aux k f1) as [l r]. cbn [fst snd] in *.
      split; [reflexivity | exact Hr].
Qed.

(** The lines of two texts put together are the lines of the first and
    then the lines of the second, when the first is empty or ends with a
    newline. *)
Lemma read_lines_app n1 : forall n2 f1 f2,
  f1 = EmptyString \/ ends_newline f1 = true ->
  (String.length f1 <= n1)%nat -> (String.length f2 <= n2)%nat ->
  read_lines (n1 + n2) (f1 ++ f2) = read_lines n1 f1 ++ read_lines n2 f2.
Proof.
  induction n1 as [|n1 IH]; intros n2 f1 f2 H Hn1 Hn2.
  - destruct f1; [|simpl in Hn1; lia]. reflexivity.
  - destruct H as [->|H].
    + cbn [append]. rewrite (read_lines_fuel (S n1 + n2) n2 f2) by lia.
      reflexivity.
    + destruct f1 as [|c f1]; [discriminate|].
      cbn [Nat.add read_lines]. unfold fgets. cbn [append].
      change (String c (f1 ++ f2)) with (String c f1 ++ f2)%string.
      destruct (fgets_aux_before (line_sz - 1) (String c f1) f2 H) as [E Hr].
      rewrite E.
      pose proof (fgets_aux_rest (line_sz - 2) c f1) as Hlen.
      change (S (line_sz - 2)) with (line_sz - 1)%nat in Hlen.
      destruct (fgets_aux (line_sz - 1) (String c f1)) as [l r].
      cbn [fst snd] in *. simpl in Hn1.
      rewrite IH by (assumption || lia). reflexivity.
Qed.

Lemma fgets_aux_long k : forall l rest,
  String.length l = k -> avoids "010" l = true ->
  fgets_aux k (l ++ rest) = (l, rest).
Proof.
  induction k as [|k IH]; intros l rest Hlen Hl.
  - destruct l; [reflexivity | discriminate].
  - destruct l as [|c l]; [discriminate|].
    cbn [append fgets_aux]. cbn [avoids] in Hl.
    apply andb_true_iff in Hl as [Hc Hl]. apply negb_true_iff in Hc.
    rewrite Hc, (IH l rest) by (simpl in Hlen; lia || assumption). reflexivity.
Qed.

End Compose.

(** X11. What [analyze_file] does to a file that is one text followed by
    another is what it does to the first text and then, from the table
    and memory it left, to the second, when the first text is empty or
    ends with a newline; an [exit] or a fault in the first text is the
    outcome of the whole. *)
Theorem files_compose
    (f1 f2 : string) (states : list (option climate_info)) (n heap : nat) :
  f1 = EmptyString \/ ends_newline f1 = true ->
  analyze_file (f1 ++ f2) states n heap =
  match analyze_file f1 states n heap with
  | Done (states', heap') => analyze_file f2 states' n heap'
  | e => e
  end.
Proof.
  intros H. unfold analyze_file. rewrite !analyze_loop_lines.
  rewrite string_app_length, read_lines_app by (assumption || lia).
  rewrite analyze_lines_app.
  destruct (analyze_lines (read_lines (String.length f1) f1) states n heap)
    as [[s h]| |]; try reflexivity.
  symmetry. apply analyze_loop_lines.
Qed.

Lemma files_compose_witness :
  analyze_file (tn_first ++ tn_second) (repeat None NUM_STATES) NUM_STATES 50 =
  match analyze_file tn_first (repeat None NUM_STATES) NUM_STATES 50 with
  | Done (states', heap') => analyze_file tn_second states' NUM_STATES heap'
  | e => e
  end.
Proof.
  apply (files_compose tn_first tn_second (repeat None NUM_STATES) NUM_STATES 50).
  right. vm_compute. reflexivity.
Defined.

(** X10. A line of more than 99 characters is not read as one record:
    when the first 99 characters of a file hold no newline,
    [analyze_file] takes them as a line of their own and goes on with
    what follows as with a file of its own. *)
Theorem long_line_is_cut
    (l rest : string) (states : list (option climate_info)) (n heap : nat) :
  String.length l = (line_sz - 1)%nat ->
  avoids "010" l = true ->
  analyze_file (l ++ rest) states n heap =
  match analyze_line l states n heap with
  | Done (states', heap') => analyze_file rest states' n heap'
  | e => e
  end.
Proof.
  intros Hlen Hl. unfold analyze_file. rewrite string_app_length, Hlen.
  change (line_sz - 1 + String.length rest)%nat
    with (S (line_sz - 2 + String.length rest)).
  cbn [analyze_loop]. unfold fgets.
  destruct l as [|c l]; [discriminate|]. cbn [append].
  change (String c (l ++ rest)) with (String c l ++ rest)%string.
  rewrite fgets_aux_long by assumption.
  destruct (analyze_line (String c l) states n heap) as [[s h]| |];
    try reflexivity.
  rewrite !analyze_loop_lines.
  rewrite (read_lines_fuel _ (String.length rest) rest) by lia. reflexivity.
Qed.

Lemma long_line_is_cut_witness :
  analyze_file (long_head ++ long_tail) (repeat None NUM_STATES) NUM_STATES 50 =
  match analyze_line long_head (repeat None NUM_STATES) NUM_STATES 50 with
  | Done (states', heap') => analyze_file long_tail states' NUM_STATES heap'
  | e => e
  end.
Proof.
  apply (long_line_is_cut long_head long_tail (repeat None NUM_STATES)
           NUM_STATES 50).
  - vm_compute. reflexivity.
  - vm_compute. reflexivity.
Defined.

(** ** Lines with fields missing *)

(** X12. A line with fewer than nine fields, a blank line among them, is
    not skipped: whenever the loop of [analyze_file] reaches an entry to
    update or a slot to fill for it, a null pointer from [strtok] is
    used (or, for a new code of more than two characters, the code field
    is overrun), and the behaviour of the program is undefined. *)
Theorem incomplete_line_faults
    (line : string) (infos : list climate_info) (free heap : nat) :
  (List.length (fields line) < 9)%nat ->
  match hd_error (fields line) with
  | Some c => mem c (map code infos) = true
  | None => infos <> []
  end \/ (0 < free /\ 0 < heap)%nat ->
  exists f,
    analyze_line line (table infos free) (List.length infos + free) heap =
    Undef f.
Proof.
  intros Hlen Hroom.
  destruct (hd_error (fields line)) as [c|] eqn:Hc.
  - apply (short_line_undefined line c); assumption.
  - exists NullPointer. unfold analyze_line.
    destruct (first_token line) as (sp & E & _). rewrite E, Hc.
    destruct infos as [|info infos'].
    + destruct Hroom as [Hr|[Hfree Hheap]]; [congruence|].
      destruct free as [|free']; [lia|]. destruct heap as [|heap']; [lia|].
      reflexivity.
    + reflexivity.
Qed.

Lemma incomplete_line_faults_witness :
  exists f,
    analyze_line (tdv_line ["TN"; "1420000000000"; "dn6m9tq7yc80"])
      (table [] 50) (List.length (@nil climate_info) + 50) 50 = Undef f.
Proof.
  apply (incomplete_line_faults
           (tdv_line ["TN"; "1420000000000"; "dn6m9tq7yc80"]) [] 50 50).
  - vm_compute. lia.
  - right. lia.
Defined.
